(** * SpamGuard: language dataset resolver and language detection

    A shallow embedding of [src/data/languages/index.ts] (the dataset
    resolver with its process-wide cache) and of
    [src/data/languages/schema.ts] (the dataset schema and the language
    detection utilities built on the [franc] classifier).

    Conventions of the embedding.
    - A JavaScript string is a Rocq [string]; the character numbered [n]
      stands for the UTF-16 code unit [n], so the model covers the code
      units U+0000 to U+00FF.  [toLowerCase], [trim], [length] and
      [substring] are written out for that range.
    - A JavaScript [number] that carries a score, a confidence or a weight
      is an exact rational ([Qc]); NaN and the infinities are outside the
      model.  The quotients of the detectors are exact; where
      [detectEmailLanguage] weighs two confidences they are rounded to the
      doubles the code holds, and the products and the difference it
      compares are the binary64 ones ([JS.binary64], [JS.times],
      [JS.minus]).  Lengths and counts are integers ([Z]).
    - A plain object literal used as a table ([languageDataMap],
      [ISO_639_3_TO_639_1]) is a list of own properties looked up through
      [Object.prototype], as property access does.
    - [datasetCache] is a [gmap]; the objects built by [processDataset]
      carry the reference they were allocated at, so that "the identical
      object" can be stated.
    - The JSON datasets and the [franc] classifier are not part of the
      sources: they are section variables. *)

From Stdlib Require Import ZArith QArith Qcanon.
From Stdlib Require Floats.
From stdpp Require Import base gmap strings list.

Local Open Scope Z_scope.

(** ** JavaScript primitives *)

Module JS.

(** [WhiteSpace] and [LineTerminator] code units below U+0100: TAB, LF, VT,
    FF, CR, SP and NBSP. *)
Definition isWhiteSpace (c : Ascii.ascii) : bool :=
  let n := Ascii.N_of_ascii c in
  (((9 <=? n) && (n <=? 13)) || (n =? 32) || (n =? 160))%N.

(** Code units with a lowercase mapping below U+0100: A-Z, and U+00C0 to
    U+00DE without the multiplication sign U+00D7. *)
Definition isUpperCase (c : Ascii.ascii) : bool :=
  let n := Ascii.N_of_ascii c in
  (((65 <=? n) && (n <=? 90))
   || ((192 <=? n) && (n <=? 222) && negb (n =? 215)))%N.

Definition toLowerChar (c : Ascii.ascii) : Ascii.ascii :=
  if isUpperCase c then Ascii.ascii_of_N (Ascii.N_of_ascii c + 32) else c.

(** [String.prototype.toLowerCase] *)
Fixpoint toLowerCase (s : string) : string :=
  match s with
  | EmptyString => EmptyString
  | String c s' => String (toLowerChar c) (toLowerCase s')
  end.

Fixpoint trimStart (s : string) : string :=
  match s with
  | EmptyString => EmptyString
  | String c s' => if isWhiteSpace c then trimStart s' else s
  end.

Fixpoint trimEnd (s : string) : string :=
  match s with
  | EmptyString => EmptyString
  | String c s' =>
      match trimEnd s' with
      | EmptyString => if isWhiteSpace c then EmptyString else String c EmptyString
      | t => String c t
      end
  end.

(** [String.prototype.trim] *)
Definition trim (s : string) : string := trimEnd (trimStart s).

(** [s.length] *)
Definition length (s : string) : Z := Z.of_nat (String.length s).

(** [s.substring(0, n)] for a natural number [n] *)
Definition substring0 (n : nat) (s : string) : string := String.substring 0 n s.

(** [xs.slice(0, end)]: a negative [end] counts from the end of the array. *)
Definition slice0 {A : Type} (xs : list A) (end_ : Z) : list A :=
  let len := Z.of_nat (List.length xs) in
  let k := if end_ <? 0 then Z.max (len + end_) 0 else Z.min end_ len in
  firstn (Z.to_nat k) xs.

Definition Math_max (a b : Qc) : Qc := if decide (a < b)%Qc then b else a.
Definition Math_min (a b : Qc) : Qc := if decide (b < a)%Qc then b else a.

(** Binary64 arithmetic on the rationals that finite doubles are.  An
    operation of IEEE 754 returns the exact result rounded to the nearest
    double, ties to the even significand. *)

(** [q * 2^k] *)
Definition scale (q : Q) (k : Z) : Q :=
  if k <? 0 then Qmake (Qnum q) (Qden q * Z.to_pos (2 ^ (- k)))
  else Qmake (Qnum q * 2 ^ k) (Qden q).

(** The binary exponent of a positive rational: the [e] with
    [2^e <= q < 2^(e+1)]. *)
Definition exponent (q : Q) : Z :=
  let e := Z.log2 (Qnum q) - Z.log2 (Zpos (Qden q)) in
  let s := scale q (- e) in
  if Zpos (Qden s) <=? Qnum s then e else e - 1.

(** The nearest integer of a rational that is not negative, ties to even. *)
Definition roundTiesToEven (q : Q) : Z :=
  let f := Qnum q / Zpos (Qden q) in
  let r := Qnum q mod Zpos (Qden q) in
  match 2 * r ?= Zpos (Qden q) with
  | Lt => f
  | Gt => f + 1
  | Eq => if Z.even f then f else f + 1
  end.

(** The nearest double of a positive rational: 53 significant bits, on the
    grid of step [2^(e-52)], where [e] is the exponent and at least -1022
    (below it the doubles are subnormal, with the fixed step [2^-1074]).
    A result of [2^1024] or more is infinite in binary64 and outside the
    model. *)
Definition round_positive (q : Q) : Q :=
  let p := Z.max (exponent q) (-1022) - 52 in
  scale (inject_Z (roundTiesToEven (scale q (- p)))) p.

Definition round (q : Q) : Q :=
  match Qnum q with
  | Z0 => 0%Q
  | Zpos _ => round_positive q
  | Zneg _ => Qopp (round_positive (Qopp q))
  end.

(** The double nearest to [q]: what an operation with the exact result [q]
    returns, and the value of a decimal literal that denotes [q]. *)
Definition binary64 (q : Qc) : Qc := Q2Qc (round q).

(** [a * b] and [a - b] on doubles *)
Definition times (a b : Qc) : Qc := binary64 (a * b)%Qc.
Definition minus (a b : Qc) : Qc := binary64 (a - b)%Qc.

(** The rational a finite primitive float of Rocq (a binary64 value of the
    kernel) stands for, in lowest terms; [None] for NaN and the
    infinities.  It serves to compare [times] and [minus] with the
    kernel's binary64 operations. *)
Definition value (f : PrimFloat.float) : option Q :=
  match FloatOps.Prim2SF f with
  | SpecFloat.S754_zero _ => Some 0%Q
  | SpecFloat.S754_finite negative m e =>
      Some (Qred (scale (inject_Z (if negative then Zneg m else Zpos m)) e))
  | _ => None
  end.

(** Does the string hold a code unit that [toLowerCase] would change? *)
Fixpoint hasUpperCase (s : string) : bool :=
  match s with
  | EmptyString => false
  | String c s' => isUpperCase c || hasUpperCase s'
  end.

(** Is every code unit of the string white space? *)
Fixpoint allWhiteSpace (s : string) : bool :=
  match s with
  | EmptyString => true
  | String c s' => isWhiteSpace c && allWhiteSpace s'
  end.

(** The names [Object.prototype] defines; every plain object inherits them. *)
Definition Object_prototype : list string :=
  [ "constructor"; "__defineGetter__"; "__defineSetter__"; "hasOwnProperty";
    "__lookupGetter__"; "__lookupSetter__"; "isPrototypeOf";
    "propertyIsEnumerable"; "toString"; "valueOf"; "__proto__";
    "toLocaleString" ]%string.

(** The own property [key] of an object literal, if it has one. *)
Fixpoint own {V : Type} (props : list (string * V)) (key : string) : option V :=
  match props with
  | [] => None
  | (k, v) :: rest => if String.eqb k key then Some v else own rest key
  end.

End JS.

(** ** The dataset schema ([schema.ts]) *)

Inductive Category :=
| finance | urgency | adult | health | scam
| marketing | phishing | lottery | drugs | crypto.

Record SpamWord := {
  word : string;
  score : Qc;
  category : Category;
  caseSensitive : option bool;
}.

Record SpamSubjectPattern := {
  pattern : string;
  pattern_score : Qc;
  name : string;
}.

Record TokenProbability := {
  spam : Qc;
  ham : Qc;
}.

Record LanguageDataset := {
  language : string;
  languageName : string;
  spamWords : list SpamWord;
  spamSingleWords : gmap string Qc;
  spamSubjectPatterns : list SpamSubjectPattern;
  hamWords : gmap string Qc;
  bayesianTokens : gmap string TokenProbability;
  urgencyWords : list string;
  greetingWords : list string;
  genericGreetings : list string;
}.

(** The raw JSON data of [index.ts], before processing. *)
Record RawLanguageData := {
  raw_language : string;
  raw_languageName : string;
  raw_spamWords : list SpamWord;
  raw_spamSingleWords : gmap string Qc;
  raw_spamSubjectPatterns : list SpamSubjectPattern;
  raw_hamWords : gmap string Qc;
  raw_bayesianTokens : gmap string TokenProbability;
  raw_urgencyWords : list string;
  raw_greetingWords : list string;
  raw_genericGreetings : list string;
}.

Definition SUPPORTED_LANGUAGES : list string :=
  [ "en"; "es"; "fr"; "de"; "pt"; "it"; "nl"; "pl"; "ru" ]%string.

(** ** Values and property access *)

(** The values the two tables can hand out: their own entries, and what a
    plain object inherits.  [VProto n] is the member [n] of
    [Object.prototype] (a function, or for [__proto__] the prototype
    itself): a truthy object that has none of the dataset properties. *)
Inductive Value :=
| VUndefined
| VNull
| VString (s : string)
| VRaw (raw : RawLanguageData)
| VProto (member : string).

(** [table[key]] on an object literal with the own properties [props]. *)
Definition get (props : list (string * Value)) (key : string) : Value :=
  match JS.own props key with
  | Some v => v
  | None => if bool_decide (key ∈ JS.Object_prototype) then VProto key else VUndefined
  end.

(** ToBoolean *)
Definition truthy (v : Value) : bool :=
  match v with
  | VUndefined | VNull => false
  | VString s => negb (String.eqb s EmptyString)
  | VRaw _ | VProto _ => true
  end.

(** [a || b] *)
Definition or_else (a b : Value) : Value := if truthy a then a else b.

(** [SUPPORTED_LANGUAGES.includes(code)] *)
Definition isSupportedLanguage (code : Value) : bool :=
  match code with
  | VString s => bool_decide (s ∈ SUPPORTED_LANGUAGES)
  | _ => false
  end.

(** ** The resolver's state and effects ([index.ts]) *)

(** A dataset object built by [processDataset], with the reference it was
    allocated at: two objects are the identical object when their
    references agree. *)
Record DatasetObject := {
  ref : nat;
  dataset : LanguageDataset;
}.

(** The module-level state: [datasetCache], the allocator, and what
    [console.warn] has printed (latest first). *)
Record State := {
  datasetCache : gmap string DatasetObject;
  nextRef : nat;
  console : list string;
}.

Definition initial : State :=
  {| datasetCache := ∅; nextRef := 0%nat; console := [] |}.

Inductive Error :=
| TypeError (message : string).

Inductive Outcome (A : Type) :=
| Returns (a : A) (st : State)
| Throws (e : Error) (st : State).
Arguments Returns {A} a st.
Arguments Throws {A} e st.

(** Computations over the module state that may throw. *)
Definition M (A : Type) : Type := State → Outcome A.

#[global] Instance M_ret : MRet M := λ A a st, Returns a st.
#[global] Instance M_bind : MBind M := λ A B f m st,
  match m st with
  | Returns a st' => f a st'
  | Throws e st' => Throws e st'
  end.

Definition throw {A : Type} (e : Error) : M A := λ st, Throws e st.

(** [datasetCache.has(key)] *)
Definition cache_has (key : string) : M bool := λ st,
  Returns (bool_decide (is_Some (datasetCache st !! key))) st.

(** [datasetCache.get(key)]: [None] is [undefined]. *)
Definition cache_get (key : string) : M (option DatasetObject) := λ st,
  Returns (datasetCache st !! key) st.

(** [datasetCache.set(key, obj)] *)
Definition cache_set (key : string) (obj : DatasetObject) : M unit := λ st,
  Returns tt {| datasetCache := <[key := obj]> (datasetCache st);
                nextRef := nextRef st;
                console := console st |}.

(** [datasetCache.clear()] *)
Definition cache_clear : M unit := λ st,
  Returns tt {| datasetCache := ∅; nextRef := nextRef st; console := console st |}.

(** [console.warn(message)] *)
Definition console_warn (message : string) : M unit := λ st,
  Returns tt {| datasetCache := datasetCache st;
                nextRef := nextRef st;
                console := message :: console st |}.

(** Allocation of the object literal [processDataset] returns. *)
Definition alloc (d : LanguageDataset) : M DatasetObject := λ st,
  Returns {| ref := nextRef st; dataset := d |}
          {| datasetCache := datasetCache st;
             nextRef := S (nextRef st);
             console := console st |}.

(** The fields [processDataset] copies from a raw dataset;
    [spamSubjectPatterns] is rebuilt entry by entry. *)
Definition processed (raw : RawLanguageData) : LanguageDataset :=
  {| language := raw_language raw;
     languageName := raw_languageName raw;
     spamWords := raw_spamWords raw;
     spamSingleWords := raw_spamSingleWords raw;
     spamSubjectPatterns :=
       map (λ p, {| pattern := pattern p;
                    pattern_score := pattern_score p;
                    name := name p |})
           (raw_spamSubjectPatterns raw);
     hamWords := raw_hamWords raw;
     bayesianTokens := raw_bayesianTokens raw;
     urgencyWords := raw_urgencyWords raw;
     greetingWords := raw_greetingWords raw;
     genericGreetings := raw_genericGreetings raw |}.

(** [processDataset(raw)] on the value it is handed at run time.  A raw
    dataset is processed; on [undefined] and [null] the first property read
    throws; on any other value [raw.spamSubjectPatterns] is [undefined] and
    calling [.map] on it throws. *)
Definition processDataset (raw : Value) : M DatasetObject :=
  match raw with
  | VRaw r => alloc (processed r)
  | VUndefined | VNull =>
      throw (TypeError "Cannot read properties of undefined (reading 'language')")
  | VString _ | VProto _ =>
      throw (TypeError "Cannot read properties of undefined (reading 'map')")
  end.

(** The nine JSON modules [index.ts] imports. *)
Record JsonModules := {
  enData : RawLanguageData;
  esData : RawLanguageData;
  frData : RawLanguageData;
  deData : RawLanguageData;
  ptData : RawLanguageData;
  itData : RawLanguageData;
  nlData : RawLanguageData;
  plData : RawLanguageData;
  ruData : RawLanguageData;
}.

Definition quote : string := String (Ascii.ascii_of_nat 34) EmptyString.

(** ** Detection results ([schema.ts]) *)

Record LanguageDetectionResult := {
  code : string;
  confidence : Qc;
  isSupported : bool;
  rawCode : string;
}.

Definition ISO_639_3_TO_639_1 : list (string * Value) :=
  [ ("eng", VString "en"); ("spa", VString "es"); ("fra", VString "fr");
    ("deu", VString "de"); ("por", VString "pt"); ("ita", VString "it");
    ("nld", VString "nl"); ("pol", VString "pl"); ("rus", VString "ru");
    ("cmn", VString "zh"); ("arb", VString "ar"); ("jpn", VString "ja");
    ("kor", VString "ko"); ("tur", VString "tr"); ("hin", VString "hi");
    ("vie", VString "vi"); ("tha", VString "th"); ("ukr", VString "uk");
    ("ces", VString "cs"); ("swe", VString "sv"); ("dan", VString "da");
    ("nor", VString "no"); ("fin", VString "fi"); ("hun", VString "hu");
    ("ron", VString "ro"); ("bul", VString "bg"); ("ell", VString "el");
    ("heb", VString "he"); ("ind", VString "id") ]%string.

(** The result both detectors return when they cannot tell. *)
Definition undetermined : LanguageDetectionResult :=
  {| code := "en"; confidence := 0%Qc; isSupported := true; rawCode := "und" |}.

(** [isSupported ? (iso639_1 as SupportedLanguage) : "en"] *)
Definition finalCode (iso639_1 : Value) : string :=
  if isSupportedLanguage iso639_1
  then match iso639_1 with VString s => s | _ => "en" end
  else "en".

(** [xs.reduce((sum, [, score]) => sum + score, 0)] *)
Definition sumScores (xs : list (string * Qc)) : Qc :=
  fold_left (λ sum cs, (sum + cs.2)%Qc) xs 0%Qc.

(** ** Sample collaborators

    A small dataset table and a small classifier, to run the functions on
    concrete inputs. *)

Definition sampleData (lang display : string) : RawLanguageData :=
  {| raw_language := lang;
     raw_languageName := display;
     raw_spamWords :=
       [ {| word := "free money"; score := Q2Qc 2.5; category := finance;
            caseSensitive := None |} ];
     raw_spamSingleWords := {[ "v1agra"%string := Q2Qc 3 ]};
     raw_spamSubjectPatterns :=
       [ {| pattern := "^RE: "; pattern_score := Q2Qc 1.5; name := "fake_reply" |} ];
     raw_hamWords := {[ "meeting"%string := Q2Qc (-1) ]};
     raw_bayesianTokens :=
       {[ "winner"%string := {| spam := Q2Qc 0.9; ham := Q2Qc 0.1 |} ]};
     raw_urgencyWords := [ "urgent"%string ];
     raw_greetingWords := [ "hello"%string ];
     raw_genericGreetings := [ "dear customer"%string ] |}.

Definition sampleJson : JsonModules :=
  {| enData := sampleData "en" "English";
     esData := sampleData "es" "Spanish";
     frData := sampleData "fr" "French";
     deData := sampleData "de" "German";
     ptData := sampleData "pt" "Portuguese";
     itData := sampleData "it" "Italian";
     nlData := sampleData "nl" "Dutch";
     plData := sampleData "pl" "Polish";
     ruData := sampleData "ru" "Russian" |}.

(** A classifier that ranks by the first word of the text. *)
Definition sampleFranc (text : string) (minLength : Z) : list (string * Qc) :=
  if String.prefix "Bonjour" text then
    [ ("fra", Q2Qc 9); ("spa", Q2Qc 3); ("ita", Q2Qc 3) ]%string
  else if String.prefix "Hello" text then
    [ ("eng", Q2Qc 4); ("fra", Q2Qc 3); ("deu", Q2Qc 3) ]%string
  else if String.prefix "Dear" text then
    [ ("eng", Q2Qc 6); ("sco", Q2Qc 4) ]%string
  else if String.prefix "Hola" text then
    [ ("spa", Q2Qc 4); ("por", Q2Qc 3); ("ita", Q2Qc 3) ]%string
  else if String.prefix "12345" text then
    [ ("und", Q2Qc 1) ]%string
  else [].

(** A second sample: a classifier that answers with a code the table does
    not hold ("est", Estonian) or with one it maps to an unsupported
    language ("jpn"). *)
Definition sampleFrancOther (text : string) (minLength : Z) : list (string * Qc) :=
  if String.prefix "Tere" text then
    [ ("est", Q2Qc 5); ("fin", Q2Qc 5) ]%string
  else if String.prefix "Konnichiwa" text then
    [ ("jpn", Q2Qc 8); ("cmn", Q2Qc 2) ]%string
  else [].

(** A third sample: detections of confidence 7/8 and 3/8, whose weighted
    confidences under the default weight are equal before rounding. *)
Definition sampleFrancClose (text : string) (minLength : Z) : list (string * Qc) :=
  if String.prefix "Buenas" text then
    [ ("spa", Q2Qc 7); ("por", Q2Qc 1) ]%string
  else if String.prefix "Thanks" text then
    [ ("eng", Q2Qc 3); ("fra", Q2Qc 3); ("deu", Q2Qc 2) ]%string
  else [].

(** Decidable statements about concrete inputs are settled by evaluating
    their decision procedure. *)
Ltac by_computation := apply (bool_decide_unpack _); vm_compute; exact I.

(** Equations between concrete rationals are settled on their canonical
    forms. *)
Ltac Qc_computation := apply Qc_is_canon; vm_compute; reflexivity.

Section Program.

Variable json : JsonModules.

(** [francAll(text, { minLength })] of the [franc] package: the ranked
    candidates with their scores. *)
Variable francAll : string → Z → list (string * Qc).

(** *** [index.ts] *)

Definition languageDataMap : list (string * Value) :=
  [ ("en", VRaw (enData json)); ("es", VRaw (esData json));
    ("fr", VRaw (frData json)); ("de", VRaw (deData json));
    ("pt", VRaw (ptData json)); ("it", VRaw (itData json));
    ("nl", VRaw (nlData json)); ("pl", VRaw (plData json));
    ("ru", VRaw (ruData json)) ]%string.

Definition getLanguageData (langCode : string) : M (option DatasetObject) :=
  let normalizedCode := JS.trim (JS.toLowerCase langCode) in
  hit ← cache_has normalizedCode;
  if hit : bool then cache_get normalizedCode
  else
    let rawData := get languageDataMap normalizedCode in
    if truthy rawData then
      obj ← processDataset rawData;
      cache_set normalizedCode obj;;
      mret (Some obj)
    else
      (if bool_decide (normalizedCode ≠ "en"%string)
       then console_warn ("Language " +:+ quote +:+ normalizedCode +:+ quote
                          +:+ " not available, falling back to English")
       else mret tt);;
      hasEn ← cache_has "en";
      (if negb hasEn
       then enDataset ← processDataset (VRaw (enData json));
            cache_set "en" enDataset
       else mret tt);;
      cache_get "en".

Definition hasLanguageData (langCode : string) : bool :=
  let normalizedCode := JS.trim (JS.toLowerCase langCode) in
  match get languageDataMap normalizedCode with
  | VNull | VUndefined => false
  | _ => true
  end.

(** [Object.entries] lists the own properties only, in insertion order. *)
Definition getAvailableLanguages : list string :=
  map fst
      (List.filter (λ entry, match entry.2 with VNull => false | _ => true end)
                   languageDataMap).

Definition getAllSupportedLanguages : list string := SUPPORTED_LANGUAGES.

Fixpoint preloadEntries (entries : list (string * Value)) : M unit :=
  match entries with
  | [] => mret tt
  | (code, data) :: rest =>
      hit ← cache_has code;
      (if truthy data && negb hit
       then obj ← processDataset data; cache_set code obj
       else mret tt);;
      preloadEntries rest
  end.

Definition preloadAllLanguages : M unit := preloadEntries languageDataMap.

Definition clearCache : M unit := cache_clear.

(** [getLanguageData(langCode).field] *)
Definition project {A : Type} (field : LanguageDataset → A) (member : string)
    (langCode : string) : M A :=
  obj ← getLanguageData langCode;
  match obj with
  | Some o => mret (field (dataset o))
  | None =>
      throw (TypeError ("Cannot read properties of undefined (reading '"
                        +:+ member +:+ "')"))
  end.

Definition getSpamWords : string → M (list SpamWord) :=
  project spamWords "spamWords".
Definition getHamWords : string → M (gmap string Qc) :=
  project hamWords "hamWords".
Definition getBayesianTokens : string → M (gmap string TokenProbability) :=
  project bayesianTokens "bayesianTokens".
Definition getUrgencyWords : string → M (list string) :=
  project urgencyWords "urgencyWords".

(** *** [schema.ts]: detection *)

Definition detectLanguage (text : string) (minLength : Z) : LanguageDetectionResult :=
  if String.eqb text EmptyString || (JS.length (JS.trim text) <? minLength) then
    {| code := "en"; confidence := 0%Qc; isSupported := true; rawCode := "und" |}
  else
    let results := francAll text 3 in
    match results with
    | [] =>
        {| code := "en"; confidence := 0%Qc; isSupported := true; rawCode := "und" |}
    | (topCode, topScore) :: _ =>
        if String.eqb topCode "und" then
          {| code := "en"; confidence := 0%Qc; isSupported := true; rawCode := "und" |}
        else
          let iso639_1 :=
            or_else (get ISO_639_3_TO_639_1 topCode)
                    (VString (JS.substring0 2 topCode)) in
          let supported := isSupportedLanguage iso639_1 in
          let totalScore := sumScores (JS.slice0 results 5) in
          let conf :=
            if decide (0 < totalScore)%Qc then (topScore / totalScore)%Qc else 0%Qc in
          {| code := finalCode iso639_1;
             confidence := JS.Math_min 1 (JS.Math_max 0 conf);
             isSupported := supported;
             rawCode := topCode |}
    end.

(** The default arguments of the three detectors. *)
Definition default_minLength : Z := 10.
Definition default_subjectWeight : Qc := JS.binary64 (Q2Qc 0.3).
Definition default_limit : Z := 5.

(** In the weighted comparison the two confidences enter as the doubles
    the code holds, [JS.binary64] of the model's exact quotients, and the
    products and [1 - subjectWeight] are the binary64 ones. *)
Definition detectEmailLanguage (subject body : string) (subjectWeight : Qc)
    : LanguageDetectionResult :=
  let bodyWeight := JS.minus 1 subjectWeight in
  let combinedText := JS.trim (subject +:+ " " +:+ body) in
  if JS.length combinedText <? 50 then detectLanguage combinedText default_minLength
  else
    let subjectResult := detectLanguage subject 5 in
    let bodyResult := detectLanguage body 10 in
    if decide (Q2Qc 0.7 < confidence bodyResult)%Qc then bodyResult
    else if String.eqb (code subjectResult) (code bodyResult) then
      {| code := code bodyResult;
         confidence := JS.Math_max (confidence subjectResult) (confidence bodyResult);
         isSupported := isSupported bodyResult;
         rawCode := rawCode bodyResult |}
    else
      let weightedSubjectConfidence :=
        JS.times (JS.binary64 (confidence subjectResult)) subjectWeight in
      let weightedBodyConfidence :=
        JS.times (JS.binary64 (confidence bodyResult)) bodyWeight in
      if decide (weightedSubjectConfidence ≤ weightedBodyConfidence)%Qc then bodyResult
      else subjectResult.

(** The function [detectLanguages] maps over the candidates it keeps. *)
Definition toResult (totalScore : Qc) (candidate : string * Qc)
    : LanguageDetectionResult :=
  let iso639_1 :=
    or_else (get ISO_639_3_TO_639_1 candidate.1)
            (VString (JS.substring0 2 candidate.1)) in
  let supported := isSupportedLanguage iso639_1 in
  {| code := finalCode iso639_1;
     confidence :=
       if decide (0 < totalScore)%Qc then (candidate.2 / totalScore)%Qc else 0%Qc;
     isSupported := supported;
     rawCode := candidate.1 |}.

Definition detectLanguages (text : string) (limit : Z) : list LanguageDetectionResult :=
  if String.eqb text EmptyString || (JS.length (JS.trim text) <? 10) then
    [ {| code := "en"; confidence := 0%Qc; isSupported := true; rawCode := "und" |} ]
  else
    let results := francAll text 3 in
    match results with
    | [] =>
        [ {| code := "en"; confidence := 0%Qc; isSupported := true; rawCode := "und" |} ]
    | _ =>
        let totalScore := sumScores (JS.slice0 results limit) in
        map (toResult totalScore) (JS.slice0 results limit)
    end.

(** *** Reachable states of the resolver *)

(** The codes a raw dataset is registered for are the own properties of
    [languageDataMap]. *)
Definition registered (key : string) (raw : RawLanguageData) : Prop :=
  JS.own languageDataMap key = Some (VRaw raw).

(** What every operation keeps true of [datasetCache]: an entry sits under
    a registered code and holds that code's processed dataset, in an
    object that was allocated earlier. *)
Definition cache_ok (st : State) : Prop :=
  ∀ key obj, datasetCache st !! key = Some obj →
    ∃ raw, registered key raw ∧ dataset obj = processed raw
           ∧ (ref obj < nextRef st)%nat.

(** The two names a normalized code can share with [Object.prototype]. *)
Definition inherited (key : string) : Prop :=
  key = "constructor"%string ∨ key = "__proto__"%string.

Definition normalize (langCode : string) : string :=
  JS.trim (JS.toLowerCase langCode).

(** The state after the warning of the fallback path. *)
Definition warned (key : string) (st : State) : State :=
  {| datasetCache := datasetCache st;
     nextRef := nextRef st;
     console :=
       ("Language " +:+ quote +:+ key +:+ quote
        +:+ " not available, falling back to English") :: console st |}.

(** The cache key a normalized code is served from: itself when a dataset
    is registered for it, the English entry otherwise. *)
Definition servedFrom (key : string) : string :=
  if bool_decide (key ∈ SUPPORTED_LANGUAGES) then key else "en"%string.

(** The state an operation leaves, whether it returned or threw. *)
Definition after {A : Type} (o : Outcome A) : State :=
  match o with
  | Returns _ st => st
  | Throws _ st => st
  end.

(** The states the module can be in: the initial one, and what any
    exported operation leaves from such a state. *)
Inductive reachable : State → Prop :=
| reachable_initial :
    reachable initial
| reachable_getLanguageData langCode st :
    reachable st → reachable (after (getLanguageData langCode st))
| reachable_project {A : Type} (field : LanguageDataset → A) member langCode st :
    reachable st → reachable (after (project field member langCode st))
| reachable_preloadAllLanguages st :
    reachable st → reachable (after (preloadAllLanguages st))
| reachable_clearCache st :
    reachable st → reachable (after (clearCache st)).

(** Objects cached under different keys are different objects. *)
Definition cache_distinct (st : State) : Prop :=
  ∀ key1 key2 obj1 obj2,
    datasetCache st !! key1 = Some obj1 → datasetCache st !! key2 = Some obj2 →
    ref obj1 = ref obj2 → key1 = key2.

(** The state after [processDataset] built an object for [raw] and it was
    cached under [key]. *)
Definition cached (key : string) (raw : RawLanguageData) (st : State) : State :=
  {| datasetCache :=
       <[key := {| ref := nextRef st; dataset := processed raw |}]> (datasetCache st);
     nextRef := S (nextRef st);
     console := console st |}.

(** The contract of the classifier on its scores: none is negative. *)
Definition nonnegative (candidates : list (string * Qc)) : Prop :=
  Forall (λ candidate, (0 ≤ candidate.2)%Qc) candidates.

(** ** Strings *)

Lemma toLowerChar_lower c : JS.isUpperCase (JS.toLowerChar c) = false.
Proof. by destruct c as [[] [] [] [] [] [] [] []]. Qed.

Lemma toLowerCase_lower s : JS.hasUpperCase (JS.toLowerCase s) = false.
Proof.
  induction s as [|c s IH]; simpl; [done|].
  by rewrite toLowerChar_lower, IH.
Qed.

Lemma trimStart_lower s :
  JS.hasUpperCase s = false → JS.hasUpperCase (JS.trimStart s) = false.
Proof.
  induction s as [|c s IH]; simpl; [done|].
  intros [Hc Hs]%orb_false_iff.
  destruct (JS.isWhiteSpace c); simpl; [auto|].
  by rewrite Hc, Hs.
Qed.

Lemma trimEnd_lower s :
  JS.hasUpperCase s = false → JS.hasUpperCase (JS.trimEnd s) = false.
Proof.
  induction s as [|c s IH]; simpl; [done|].
  intros [Hc Hs]%orb_false_iff. specialize (IH Hs).
  destruct (JS.trimEnd s) as [|c' t].
  - destruct (JS.isWhiteSpace c); simpl; [done|]. by rewrite Hc.
  - change (JS.hasUpperCase (String c (String c' t)))
      with (JS.isUpperCase c || JS.hasUpperCase (String c' t)).
    by rewrite Hc, IH.
Qed.

Lemma normalize_lower langCode : JS.hasUpperCase (normalize langCode) = false.
Proof.
  unfold normalize, JS.trim.
  apply trimEnd_lower, trimStart_lower, toLowerCase_lower.
Qed.

(** ** Property access on [languageDataMap] *)

Lemma own_registered key v :
  JS.own languageDataMap key = Some v → ∃ raw, v = VRaw raw.
Proof.
  unfold languageDataMap; cbn [JS.own].
  repeat (destruct (String.eqb _ key); [intros [= <-]; eauto|]). done.
Qed.

Lemma own_supported key :
  is_Some (JS.own languageDataMap key) ↔ key ∈ SUPPORTED_LANGUAGES.
Proof.
  unfold languageDataMap, SUPPORTED_LANGUAGES; cbn [JS.own]. split.
  - repeat match goal with
           | |- context [String.eqb ?k key] =>
               destruct (String.eqb_spec k key) as [<-|?]; [set_solver|]
           end.
    by intros [? ?].
  - intros Hin.
    repeat (apply elem_of_cons in Hin as [->|Hin]; [by eexists|]).
    by apply elem_of_nil in Hin.
Qed.

Lemma prototype_lower key :
  key ∈ JS.Object_prototype → JS.hasUpperCase key = false → inherited key.
Proof.
  unfold JS.Object_prototype, inherited. intros Hin Hlow.
  repeat (apply elem_of_cons in Hin as [->|Hin]; [by auto|]).
  by apply elem_of_nil in Hin.
Qed.

(** What [languageDataMap[key]] evaluates to on a normalized key: a
    registered raw dataset, an inherited member, or [undefined]. *)
Lemma get_languageDataMap key :
  JS.hasUpperCase key = false →
  (∃ raw, registered key raw ∧ get languageDataMap key = VRaw raw)
  ∨ (JS.own languageDataMap key = None ∧ inherited key
     ∧ get languageDataMap key = VProto key)
  ∨ (JS.own languageDataMap key = None ∧ ¬ inherited key
     ∧ get languageDataMap key = VUndefined).
Proof.
  intros Hlow. unfold get, registered.
  destruct (JS.own languageDataMap key) as [v|] eqn:Hown.
  - destruct (own_registered _ _ Hown) as [raw ->]. left; eauto.
  - right. case_bool_decide as Hin.
    + left. eauto using prototype_lower.
    + right. split; [done|]. split; [|done].
      intros [-> | ->]; apply Hin; set_solver.
Qed.

(** ** The paths of [getLanguageData] *)

Lemma cache_has_Some key obj st :
  datasetCache st !! key = Some obj → cache_has key st = Returns true st.
Proof. intros H. unfold cache_has. by rewrite H. Qed.

Lemma cache_has_None key st :
  datasetCache st !! key = None → cache_has key st = Returns false st.
Proof. intros H. unfold cache_has. by rewrite H. Qed.

(** A cache hit returns the cached object and changes nothing. *)
Lemma getLanguageData_hit langCode st obj :
  datasetCache st !! normalize langCode = Some obj →
  getLanguageData langCode st = Returns (Some obj) st.
Proof.
  intros Hhit. unfold getLanguageData, mbind, M_bind.
  fold (normalize langCode).
  rewrite (cache_has_Some _ _ _ Hhit). unfold cache_get. by rewrite Hhit.
Qed.

(** A miss on a registered code processes the raw dataset into a fresh
    object and caches it under the normalized code. *)
Lemma getLanguageData_load langCode st raw :
  datasetCache st !! normalize langCode = None →
  get languageDataMap (normalize langCode) = VRaw raw →
  let obj := {| ref := nextRef st; dataset := processed raw |} in
  getLanguageData langCode st =
    Returns (Some obj)
      {| datasetCache := <[normalize langCode := obj]> (datasetCache st);
         nextRef := S (nextRef st);
         console := console st |}.
Proof.
  intros Hmiss Hget. unfold getLanguageData, mbind, M_bind.
  fold (normalize langCode).
  rewrite (cache_has_None _ _ Hmiss), Hget. done.
Qed.

(** A miss on a name inherited from [Object.prototype] hands a value that is
    not a raw dataset to [processDataset], which throws. *)
Lemma getLanguageData_inherited langCode st member :
  datasetCache st !! normalize langCode = None →
  get languageDataMap (normalize langCode) = VProto member →
  getLanguageData langCode st =
    Throws (TypeError "Cannot read properties of undefined (reading 'map')") st.
Proof.
  intros Hmiss Hget. unfold getLanguageData, mbind, M_bind.
  fold (normalize langCode).
  rewrite (cache_has_None _ _ Hmiss), Hget. done.
Qed.

(** A miss on a code nothing is found for warns and serves the cached
    English object. *)
Lemma getLanguageData_fallback_cached langCode st enObj :
  datasetCache st !! normalize langCode = None →
  get languageDataMap (normalize langCode) = VUndefined →
  datasetCache st !! "en"%string = Some enObj →
  getLanguageData langCode st =
    Returns (Some enObj) (warned (normalize langCode) st).
Proof.
  intros Hmiss Hget Hen. unfold getLanguageData, mbind, M_bind.
  fold (normalize langCode).
  rewrite (cache_has_None _ _ Hmiss), Hget. cbn [truthy].
  rewrite bool_decide_true; last first.
  { intros Heq. rewrite Heq in Hmiss. congruence. }
  unfold console_warn. fold (warned (normalize langCode) st).
  rewrite (cache_has_Some _ enObj) by done.
  cbn [negb]. unfold mret, M_ret, cache_get. by rewrite <- Hen.
Qed.

(** The same miss with no English object cached yet processes [enData]
    first. *)
Lemma getLanguageData_fallback_fresh langCode st :
  datasetCache st !! normalize langCode = None →
  get languageDataMap (normalize langCode) = VUndefined →
  datasetCache st !! "en"%string = None →
  let enObj := {| ref := nextRef st; dataset := processed (enData json) |} in
  getLanguageData langCode st =
    Returns (Some enObj)
      {| datasetCache := <["en"%string := enObj]> (datasetCache st);
         nextRef := S (nextRef st);
         console := console (warned (normalize langCode) st) |}.
Proof.
  intros Hmiss Hget Hen. unfold getLanguageData, mbind, M_bind.
  fold (normalize langCode).
  rewrite (cache_has_None _ _ Hmiss), Hget. cbn [truthy].
  rewrite bool_decide_true; last first.
  { intros Heq. rewrite Heq in Hget. discriminate Hget. }
  unfold console_warn. fold (warned (normalize langCode) st).
  rewrite (cache_has_None "en" (warned (normalize langCode) st)) by done.
  cbn. unfold cache_get; cbn. by rewrite lookup_insert_eq.
Qed.

(** ** The cache invariant *)

Lemma cache_ok_initial : cache_ok initial.
Proof. intros key obj. unfold initial; simpl. by rewrite lookup_empty. Qed.

Lemma cache_ok_unregistered st key :
  cache_ok st → JS.own languageDataMap key = None → datasetCache st !! key = None.
Proof.
  intros Hok Hown. destruct (datasetCache st !! key) as [obj|] eqn:Hc; [|done].
  destruct (Hok _ _ Hc) as (raw & Hreg & _). unfold registered in Hreg. congruence.
Qed.

Lemma cache_ok_warned st key : cache_ok st → cache_ok (warned key st).
Proof. intros Hok k obj. apply Hok. Qed.

Lemma cache_ok_insert st key raw :
  cache_ok st → registered key raw →
  cache_ok
    {| datasetCache :=
         <[key := {| ref := nextRef st; dataset := processed raw |}]> (datasetCache st);
       nextRef := S (nextRef st);
       console := console st |}.
Proof.
  intros Hok Hreg k obj; cbn. rewrite lookup_insert.
  case_decide as Hk.
  - intros [= <-]. subst k. exists raw; cbn. auto with lia.
  - intros Hc. destruct (Hok _ _ Hc) as (r & ? & ? & ?). exists r. auto with lia.
Qed.

Lemma cache_ok_clear st : cache_ok st → ∃ st', clearCache st = Returns tt st' ∧ cache_ok st'.
Proof.
  intros _. eexists; split; [reflexivity|].
  intros key obj; cbn. by rewrite lookup_empty.
Qed.

Lemma registered_en : registered "en" (enData json).
Proof. reflexivity. Qed.

Lemma servedFrom_registered key raw : registered key raw → servedFrom key = key.
Proof.
  intros Hreg. unfold servedFrom. rewrite bool_decide_true; [done|].
  apply own_supported. by eexists.
Qed.

Lemma servedFrom_unregistered key :
  JS.own languageDataMap key = None → servedFrom key = "en"%string.
Proof.
  intros Hown. unfold servedFrom. rewrite bool_decide_false; [done|].
  intros [v Hv]%own_supported. congruence.
Qed.

(** What a call of [getLanguageData] does from a reachable state: on a
    name inherited from [Object.prototype] it throws; on every other code
    it returns an object, the one cached under [servedFrom] of the
    normalized code, keeps every cache entry it found, and warns exactly
    when no dataset is registered for the code. *)
Lemma getLanguageData_spec langCode st :
  cache_ok st →
  let key := normalize langCode in
  (inherited key
   ∧ getLanguageData langCode st =
       Throws (TypeError "Cannot read properties of undefined (reading 'map')") st)
  ∨ (¬ inherited key
     ∧ ∃ obj st',
         getLanguageData langCode st = Returns (Some obj) st'
         ∧ cache_ok st'
         ∧ datasetCache st' !! servedFrom key = Some obj
         ∧ datasetCache st ⊆ datasetCache st'
         ∧ console st' =
             if bool_decide (key ∈ SUPPORTED_LANGUAGES) then console st
             else console (warned key st)).
Proof.
  intros Hok key.
  destruct (get_languageDataMap key (normalize_lower langCode))
    as [(raw & Hreg & Hget) | [(Hown & Hinh & Hget) | (Hown & Hinh & Hget)]].
  - (* a registered code *)
    right. split.
    { intros Hinh. unfold registered in Hreg.
      destruct Hinh as [Heq | Heq]; rewrite Heq in Hreg; discriminate Hreg. }
    rewrite (servedFrom_registered _ _ Hreg).
    rewrite bool_decide_true by (apply own_supported; by eexists).
    destruct (datasetCache st !! key) as [obj|] eqn:Hc.
    + exists obj, st. by rewrite (getLanguageData_hit _ _ _ Hc).
    + eexists _, _. rewrite (getLanguageData_load _ _ _ Hc Hget).
      split; [reflexivity|]. split; [by apply cache_ok_insert|].
      cbn. split; [by rewrite lookup_insert_eq|].
      split; [by apply insert_subseteq|done].
  - (* an inherited name *)
    left. split; [done|].
    eapply getLanguageData_inherited; [|done].
    by apply cache_ok_unregistered.
  - (* nothing found: the English fallback *)
    right. split; [done|].
    pose proof (cache_ok_unregistered _ _ Hok Hown) as Hc.
    rewrite (servedFrom_unregistered _ Hown).
    rewrite bool_decide_false
      by (intros [v Hv]%own_supported; fold key in Hown; congruence).
    destruct (datasetCache st !! "en"%string) as [enObj|] eqn:Hen.
    + eexists _, _. rewrite (getLanguageData_fallback_cached _ _ _ Hc Hget Hen).
      split; [reflexivity|]. split; [by apply cache_ok_warned|]. done.
    + eexists _, _. rewrite (getLanguageData_fallback_fresh _ _ Hc Hget Hen).
      split; [reflexivity|].
      split; [apply (cache_ok_insert st "en" (enData json) Hok registered_en)|].
      cbn. split; [by rewrite lookup_insert_eq|].
      split; [by apply insert_subseteq|done].
Qed.

(** ** The resolver away from the inherited names *)

(** From a reachable state, a code whose normalized form is not a name
    inherited from [Object.prototype] always gets a dataset object. *)
Lemma getLanguageData_returns langCode st :
  cache_ok st → ¬ inherited (normalize langCode) →
  ∃ obj st', getLanguageData langCode st = Returns (Some obj) st' ∧ cache_ok st'.
Proof.
  intros Hok Hinh.
  destruct (getLanguageData_spec langCode st Hok) as [[? _] | (_ & obj & st' & ? & ? & _)];
    [done | eauto].
Qed.

(** The field projections return on the same codes. *)
Lemma project_returns {A : Type} (field : LanguageDataset → A) member langCode st :
  cache_ok st → ¬ inherited (normalize langCode) →
  ∃ obj st', getLanguageData langCode st = Returns (Some obj) st'
             ∧ project field member langCode st = Returns (field (dataset obj)) st'.
Proof.
  intros Hok Hinh.
  destruct (getLanguageData_returns langCode st Hok Hinh) as (obj & st' & Hget & _).
  exists obj, st'. split; [done|].
  unfold project, mbind, M_bind. by rewrite Hget.
Qed.

(** Once a code has been served, every later call with a code of the same
    normalized form returns the identical object, as long as the cache has
    only grown in between. *)
Lemma getLanguageData_identical a b st obj st1 st2 :
  cache_ok st →
  normalize a = normalize b →
  getLanguageData a st = Returns (Some obj) st1 →
  cache_ok st2 → datasetCache st1 ⊆ datasetCache st2 →
  ∃ st3, getLanguageData b st2 = Returns (Some obj) st3.
Proof.
  intros Hok Hab Ha Hok2 Hsub.
  destruct (getLanguageData_spec a st Hok)
    as [[_ Hthrow] | (Hinh & obj' & st' & Hret & _ & Hserved & _)];
    [congruence|].
  rewrite Ha in Hret. injection Hret as <- <-.
  destruct (getLanguageData_spec b st2 Hok2)
    as [[Hinh' _] | (_ & obj2 & st3 & Hret2 & _ & Hserved2 & Hsub2 & _)].
  { by rewrite <- Hab in Hinh'. }
  exists st3. rewrite Hret2. do 2 f_equal.
  rewrite <- Hab in Hserved2.
  eapply lookup_weaken in Hserved; [|exact Hsub].
  eapply lookup_weaken in Hserved; [|exact Hsub2].
  congruence.
Qed.

(** A code with no registered dataset and no inherited meaning is served
    the processed English dataset, after one warning that names it. *)
Lemma getLanguageData_fallback langCode st :
  cache_ok st →
  JS.own languageDataMap (normalize langCode) = None →
  ¬ inherited (normalize langCode) →
  ∃ obj st',
    getLanguageData langCode st = Returns (Some obj) st'
    ∧ dataset obj = processed (enData json)
    ∧ datasetCache st' !! "en"%string = Some obj
    ∧ normalize langCode ≠ "en"%string
    ∧ console st' = console (warned (normalize langCode) st).
Proof.
  intros Hok Hown Hinh.
  destruct (getLanguageData_spec langCode st Hok)
    as [[? _] | (_ & obj & st' & Hret & Hok' & Hserved & _ & Hconsole)]; [done|].
  rewrite (servedFrom_unregistered _ Hown) in Hserved.
  rewrite bool_decide_false in Hconsole
    by (intros [v Hv]%own_supported; congruence).
  exists obj, st'. repeat split; try done.
  - destruct (Hok' _ _ Hserved) as (raw & Hreg & Hdata & _).
    unfold registered in Hreg. rewrite registered_en in Hreg. congruence.
  - intros Heq. rewrite Heq in Hown. discriminate Hown.
Qed.

(** Away from the inherited names, [hasLanguageData] answers for exactly
    the nine registered codes. *)
Lemma hasLanguageData_registered langCode :
  ¬ inherited (normalize langCode) →
  hasLanguageData langCode = true ↔ normalize langCode ∈ SUPPORTED_LANGUAGES.
Proof.
  intros Hinh. unfold hasLanguageData. fold (normalize langCode).
  destruct (get_languageDataMap _ (normalize_lower langCode))
    as [(raw & Hreg & ->) | [(_ & ? & _) | (Hown & _ & ->)]]; [|done|].
  - split; [intros _|done]. apply own_supported. by eexists.
  - split; [done|]. intros [v Hv]%own_supported. congruence.
Qed.

(** [preloadAllLanguages] walks the own entries only, so it always returns:
    afterwards every registered code is cached and nothing was dropped. *)
Lemma preloadEntries_returns entries st :
  (∀ key v, (key, v) ∈ entries → ∃ raw, v = VRaw raw ∧ registered key raw) →
  cache_ok st →
  ∃ st', preloadEntries entries st = Returns tt st'
         ∧ cache_ok st'
         ∧ datasetCache st ⊆ datasetCache st'
         ∧ ∀ key v, (key, v) ∈ entries → is_Some (datasetCache st' !! key).
Proof.
  revert st. induction entries as [|[key v] entries IH]; intros st Hentries Hok.
  - exists st. repeat split; try done. intros ? ? []%elem_of_nil.
  - destruct (Hentries key v) as (raw & -> & Hreg); [left|].
    assert (Hrest : ∀ k w, (k, w) ∈ entries → ∃ r, w = VRaw r ∧ registered k r)
      by (intros k w Hin; apply Hentries; by right).
    cbn [preloadEntries]. unfold mbind, M_bind.
    destruct (datasetCache st !! key) as [obj|] eqn:Hc.
    + rewrite (cache_has_Some _ _ _ Hc). cbn.
      destruct (IH st Hrest Hok) as (st' & Hrun & Hok' & Hsub & Hall).
      exists st'. repeat split; try done.
      intros k w [[= -> ->] | Hin]%elem_of_cons; [|by eauto].
      exists obj. by eapply lookup_weaken.
    + rewrite (cache_has_None _ _ Hc). cbn.
      destruct (IH _ Hrest (cache_ok_insert st key raw Hok Hreg))
        as (st' & Hrun & Hok' & Hsub & Hall).
      exists st'. split; [exact Hrun|]. split; [done|]. cbn in Hsub. split.
      * etrans; [by apply insert_subseteq|done].
      * intros k w [[= -> ->] | Hin]%elem_of_cons; [|by eauto].
        eexists. eapply lookup_weaken; [|exact Hsub]. apply lookup_insert_eq.
Qed.

Lemma languageDataMap_entries key v :
  (key, v) ∈ languageDataMap → ∃ raw, v = VRaw raw ∧ registered key raw.
Proof.
  unfold languageDataMap. intros Hin.
  repeat (apply elem_of_cons in Hin as [[= -> ->] | Hin]; [by eexists|]).
  by apply elem_of_nil in Hin.
Qed.

Lemma preloadAllLanguages_returns st :
  cache_ok st →
  ∃ st', preloadAllLanguages st = Returns tt st'
         ∧ cache_ok st'
         ∧ datasetCache st ⊆ datasetCache st'
         ∧ ∀ key, key ∈ SUPPORTED_LANGUAGES → is_Some (datasetCache st' !! key).
Proof.
  intros Hok.
  destruct (preloadEntries_returns languageDataMap st languageDataMap_entries Hok)
    as (st' & Hrun & Hok' & Hsub & Hall).
  exists st'. repeat split; try done.
  intros key [v Hv]%own_supported.
  destruct (own_registered _ _ Hv) as [raw ->].
  apply (Hall key (VRaw raw)).
  clear -Hv. unfold languageDataMap in *. cbn [JS.own] in Hv.
  repeat match type of Hv with
         | context [String.eqb ?k key] =>
             destruct (String.eqb_spec k key) as [<-|?];
               [injection Hv as <-; set_solver|]
         end.
  done.
Qed.

(** ** The resolver on the inherited names *)

(** C1. The claim is that [getLanguageData] returns a dataset for every
    string and that no resolver operation raises.  On the code
    "constructor" the lookup [languageDataMap[normalizedCode]] finds the
    member every plain object inherits from [Object.prototype]; it is
    truthy, so it is handed to [processDataset], and the call throws a
    TypeError instead of falling back to English.  The field projection
    [getSpamWords] throws with it. *)
Theorem getLanguageData_constructor_throws :
  getLanguageData "constructor" initial =
    Throws (TypeError "Cannot read properties of undefined (reading 'map')") initial
  ∧ getSpamWords "constructor" initial =
      Throws (TypeError "Cannot read properties of undefined (reading 'map')") initial.
Proof. split; by vm_compute. Qed.

(** C2. The claim is that two codes with the same normalized form get the
    identical cached object.  "constructor" and " Constructor " normalize
    to the same key, and neither call returns an object: both throw, the
    second from the state the first one left. *)
Theorem getLanguageData_same_key_throws :
  normalize "constructor" = normalize " Constructor "
  ∧ (∃ e, getLanguageData "constructor" initial = Throws e initial
          ∧ getLanguageData " Constructor " initial = Throws e initial).
Proof. split; [by vm_compute|]. eexists. split; by vm_compute. Qed.

(** C3. The claim is that every code without a registered raw dataset is
    served the English dataset.  No dataset is registered for
    "__proto__": it is not an own property of [languageDataMap] and not
    one of the available languages; yet [getLanguageData] does not fall
    back for it, it throws without a warning. *)
Theorem getLanguageData_unregistered_throws :
  JS.own languageDataMap (normalize "__proto__") = None
  ∧ (normalize "__proto__" ∉ getAvailableLanguages)
  ∧ getLanguageData "__proto__" initial =
      Throws (TypeError "Cannot read properties of undefined (reading 'map')") initial.
Proof.
  split; [by vm_compute|]. split; [by_computation|by vm_compute].
Qed.

(** C4. The claim is that [hasLanguageData] is true exactly for the nine
    registered codes.  It is also true for "constructor", which is none of
    them: [languageDataMap["constructor"]] is neither [null] nor
    [undefined].  [getAvailableLanguages], which walks the own entries,
    does not list it. *)
Theorem hasLanguageData_constructor :
  hasLanguageData "constructor" = true
  ∧ (normalize "constructor" ∉ SUPPORTED_LANGUAGES)
  ∧ JS.own languageDataMap (normalize "constructor") = None
  ∧ (normalize "constructor" ∉ getAvailableLanguages).
Proof.
  split; [by vm_compute|]. split; [by_computation|].
  split; [by vm_compute|by_computation].
Qed.

(** ** Numbers, arrays and white space *)

Lemma Math_max_le_l a b : (a ≤ JS.Math_max a b)%Qc.
Proof. unfold JS.Math_max. case_decide; [by apply Qclt_le_weak|done]. Qed.

Lemma Math_max_le_r a b : (b ≤ JS.Math_max a b)%Qc.
Proof. unfold JS.Math_max. case_decide; [done|by apply Qcle_ngt]. Qed.

Lemma Math_max_cases a b : JS.Math_max a b = a ∨ JS.Math_max a b = b.
Proof. unfold JS.Math_max. case_decide; auto. Qed.

(** [Math.min(1, Math.max(0, c))] lies in the unit interval. *)
Lemma clamp_unit c : (0 ≤ JS.Math_min 1 (JS.Math_max 0 c) ≤ 1)%Qc.
Proof.
  unfold JS.Math_min. case_decide as Hlt.
  - split; [apply Math_max_le_l|by apply Qclt_le_weak].
  - split; [done|done].
Qed.

(** Inside the unit interval the clamp changes nothing. *)
Lemma clamp_id c : (0 ≤ c ≤ 1)%Qc → JS.Math_min 1 (JS.Math_max 0 c) = c.
Proof.
  intros [H0 H1]. unfold JS.Math_min, JS.Math_max.
  destruct (decide (0 < c)%Qc) as [Hc|Hc].
  - case_decide as H; [done|]. apply Qcle_antisym; [by apply Qcle_ngt|done].
  - apply Qcle_ngt in Hc. case_decide as H; [by apply Qcle_antisym|].
    by destruct H.
Qed.

Lemma slice0_nonneg {A : Type} (xs : list A) (n : Z) :
  0 ≤ n → JS.slice0 xs n = firstn (Z.to_nat n) xs.
Proof.
  intros Hn. unfold JS.slice0.
  destruct (Z.ltb_spec n 0) as [?|_]; [lia|].
  destruct (Z.le_gt_cases n (Z.of_nat (List.length xs))) as [Hle|Hgt].
  - by rewrite Z.min_l.
  - rewrite Z.min_r by lia. rewrite Nat2Z.id.
    rewrite !firstn_all2; [done| lia | done].
Qed.

Lemma trimStart_allWhiteSpace s :
  JS.allWhiteSpace s = true → JS.trimStart s = EmptyString.
Proof.
  induction s as [|c s IH]; simpl; [done|].
  intros [Hc Hs]%andb_true_iff. rewrite Hc. auto.
Qed.

(** A whitespace-only text trims to the empty string. *)
Lemma trim_allWhiteSpace s : JS.allWhiteSpace s = true → JS.trim s = EmptyString.
Proof. intros H. unfold JS.trim. by rewrite trimStart_allWhiteSpace. Qed.

(** ** [detectLanguage] *)

(** The first guard: an empty text, or one whose trimmed length is below
    [minLength]. *)
Lemma detectLanguage_guard text minLength :
  text = EmptyString ∨ JS.length (JS.trim text) < minLength →
  detectLanguage text minLength = undetermined.
Proof.
  intros Hguard. unfold detectLanguage.
  destruct Hguard as [-> | Hshort]; [done|].
  apply Z.ltb_lt in Hshort. rewrite Hshort. by rewrite orb_true_r.
Qed.

(** The second guard: the classifier has no candidate, or its first one is
    the undetermined sentinel. *)
Lemma detectLanguage_no_candidate text minLength :
  (francAll text 3 = [] ∨ ∃ topScore rest, francAll text 3 = ("und"%string, topScore) :: rest) →
  detectLanguage text minLength = undetermined.
Proof.
  intros Hund. unfold detectLanguage. case_match; [done|].
  destruct Hund as [-> | (topScore & rest & ->)]; done.
Qed.

(** Past both guards the result is built from the top candidate. *)
Lemma detectLanguage_top text minLength topCode topScore rest :
  text ≠ EmptyString → minLength ≤ JS.length (JS.trim text) →
  francAll text 3 = (topCode, topScore) :: rest → topCode ≠ "und"%string →
  let iso639_1 :=
    or_else (get ISO_639_3_TO_639_1 topCode) (VString (JS.substring0 2 topCode)) in
  let totalScore := sumScores (firstn 5 (francAll text 3)) in
  detectLanguage text minLength =
    {| code := finalCode iso639_1;
       confidence :=
         JS.Math_min 1
           (JS.Math_max 0
              (if decide (0 < totalScore)%Qc then (topScore / totalScore)%Qc else 0%Qc));
       isSupported := isSupportedLanguage iso639_1;
       rawCode := topCode |}.
Proof.
  intros Htext Hlen Hres Htop. cbn zeta. unfold detectLanguage.
  apply String.eqb_neq in Htext, Htop. apply Z.ltb_ge in Hlen.
  rewrite Htext, Hlen. cbn [orb]. rewrite Hres, Htop.
  by rewrite (slice0_nonneg _ 5).
Qed.

(** C5. Past the guards, on a non-empty candidate list with a determinate
    top candidate, the confidence of [detectLanguage] is the top score
    divided by the sum of the scores of the first five candidates (all of
    them when there are fewer), taken as 0 when that sum is not positive,
    and clamped into the unit interval; it is 0 when the sum is 0.  For
    every text and every [minLength] the confidence lies between 0 and 1. *)
Theorem detectLanguage_confidence text minLength :
  (∀ topCode topScore rest,
     text ≠ EmptyString → minLength ≤ JS.length (JS.trim text) →
     francAll text 3 = (topCode, topScore) :: rest → topCode ≠ "und"%string →
     let totalScore := sumScores (firstn 5 (francAll text 3)) in
     confidence (detectLanguage text minLength) =
       JS.Math_min 1
         (JS.Math_max 0
            (if decide (0 < totalScore)%Qc then (topScore / totalScore)%Qc else 0%Qc))
     ∧ (totalScore = 0%Qc → confidence (detectLanguage text minLength) = 0%Qc))
  ∧ (0 ≤ confidence (detectLanguage text minLength) ≤ 1)%Qc.
Proof.
  split.
  - intros topCode topScore rest Htext Hlen Hres Htop totalScore.
    rewrite (detectLanguage_top _ _ _ _ _ Htext Hlen Hres Htop). cbn [confidence].
    fold totalScore. split; [done|].
    intros ->. by rewrite decide_False.
  - unfold detectLanguage.
    repeat case_match; cbn [confidence]; try done; apply clamp_unit.
Qed.

(** C9. A text that is empty, or whitespace-only, or shorter than
    [minLength] once trimmed, gets exactly the undetermined result:
    English, confidence 0, supported, raw code "und".  A whitespace-only
    text trims to length 0, which is below every positive [minLength];
    under a [minLength] that is not positive it reaches the classifier and
    gets the same result when the classifier determines nothing for it.
    [detectLanguage("hi", 10)] is the undetermined result. *)
Theorem detectLanguage_short text minLength :
  (text = EmptyString
   ∨ (JS.allWhiteSpace text = true
      ∧ (0 < minLength
         ∨ francAll text 3 = []
         ∨ ∃ topScore rest, francAll text 3 = ("und"%string, topScore) :: rest))
   ∨ JS.length (JS.trim text) < minLength →
   detectLanguage text minLength =
     {| code := "en"; confidence := 0%Qc; isSupported := true; rawCode := "und" |})
  ∧ detectLanguage "hi" 10 =
      {| code := "en"; confidence := 0%Qc; isSupported := true; rawCode := "und" |}.
Proof.
  split.
  - intros [Hempty | [[Hblank [Hpos | Hund]] | Hshort]].
    + apply detectLanguage_guard; auto.
    + apply detectLanguage_guard. right.
      by rewrite (trim_allWhiteSpace _ Hblank).
    + by apply detectLanguage_no_candidate.
    + apply detectLanguage_guard; auto.
  - by apply detectLanguage_guard; right.
Qed.

(** ** [detectEmailLanguage] *)

(** C6. When the trimmed concatenation of subject and body has at least 50
    code units, the body detection has confidence at most 0.7 and the two
    detections agree on the code, [detectEmailLanguage] returns the body's
    code, raw code and support flag with the larger of the two
    confidences: confidences 0.4 and 0.6 give 0.6. *)
Theorem detectEmailLanguage_agreement subject body subjectWeight :
  let subjectResult := detectLanguage subject 5 in
  let bodyResult := detectLanguage body 10 in
  50 ≤ JS.length (JS.trim (subject +:+ " " +:+ body)) →
  (confidence bodyResult ≤ Q2Qc 0.7)%Qc →
  code subjectResult = code bodyResult →
  let larger := JS.Math_max (confidence subjectResult) (confidence bodyResult) in
    detectEmailLanguage subject body subjectWeight =
      {| code := code bodyResult;
         confidence := larger;
         isSupported := isSupported bodyResult;
         rawCode := rawCode bodyResult |}
    ∧ (confidence subjectResult ≤ larger)%Qc
    ∧ (confidence bodyResult ≤ larger)%Qc
    ∧ (larger = confidence subjectResult ∨ larger = confidence bodyResult)
    ∧ (confidence subjectResult = Q2Qc 0.4 → confidence bodyResult = Q2Qc 0.6 →
       larger = Q2Qc 0.6).
Proof.
  intros subjectResult bodyResult Hlen Hbody Hagree larger.
  split; [|split; [apply Math_max_le_l|split; [apply Math_max_le_r|split]]].
  - unfold detectEmailLanguage.
    apply Z.ltb_ge in Hlen. rewrite Hlen.
    fold subjectResult bodyResult.
    rewrite decide_False by (by apply Qcle_ngt).
    apply String.eqb_eq in Hagree. by rewrite Hagree.
  - apply Math_max_cases.
  - unfold larger. intros -> ->. by vm_compute.
Qed.

(** C7. Under the same length and confidence conditions, when the two
    detections disagree on the code, [detectEmailLanguage] compares the
    two weighted confidences as the code computes them, in binary64: the
    product of the subject confidence (a double) and [subjectWeight], and
    the product of the body confidence and [1 - subjectWeight].  It returns
    the subject
    result if the first is strictly greater than the second, and the body
    result, unchanged, otherwise: a tie goes to the body. *)
Theorem detectEmailLanguage_weighted subject body subjectWeight :
  let subjectResult := detectLanguage subject 5 in
  let bodyResult := detectLanguage body 10 in
  let weightedSubjectConfidence :=
    JS.times (JS.binary64 (confidence subjectResult)) subjectWeight in
  let weightedBodyConfidence :=
    JS.times (JS.binary64 (confidence bodyResult)) (JS.minus 1 subjectWeight) in
  50 ≤ JS.length (JS.trim (subject +:+ " " +:+ body)) →
  (confidence bodyResult ≤ Q2Qc 0.7)%Qc →
  code subjectResult ≠ code bodyResult →
  ((weightedBodyConfidence < weightedSubjectConfidence)%Qc →
   detectEmailLanguage subject body subjectWeight = subjectResult)
  ∧ ((weightedSubjectConfidence ≤ weightedBodyConfidence)%Qc →
     detectEmailLanguage subject body subjectWeight = bodyResult).
Proof.
  intros subjectResult bodyResult weightedSubjectConfidence weightedBodyConfidence
    Hlen Hbody Hdiffer.
  assert (Hrun : detectEmailLanguage subject body subjectWeight =
    if decide (weightedSubjectConfidence ≤ weightedBodyConfidence)%Qc
    then bodyResult else subjectResult).
  { unfold detectEmailLanguage.
    apply Z.ltb_ge in Hlen. rewrite Hlen.
    fold subjectResult bodyResult.
    rewrite decide_False by (by apply Qcle_ngt).
    apply String.eqb_neq in Hdiffer. by rewrite Hdiffer. }
  rewrite Hrun. split; intros Hcmp.
  - rewrite decide_False; [done|]. by apply Qclt_nge.
  - by rewrite decide_True.
Qed.

(** ** [detectLanguages] *)

(** Past its guards, [detectLanguages] maps the candidates it keeps. *)
Lemma detectLanguages_kept text limit :
  text ≠ EmptyString → 10 ≤ JS.length (JS.trim text) → francAll text 3 ≠ [] →
  0 ≤ limit →
  let kept := firstn (Z.to_nat limit) (francAll text 3) in
  detectLanguages text limit = map (toResult (sumScores kept)) kept.
Proof.
  intros Htext Hlen Hres Hlimit. cbn zeta. unfold detectLanguages.
  apply String.eqb_neq in Htext. apply Z.ltb_ge in Hlen.
  rewrite Htext, Hlen. cbn [orb].
  destruct (francAll text 3) as [|candidate rest] eqn:Hfranc; [done|].
  by rewrite slice0_nonneg.
Qed.

(** C8. For a text past the guards on which the classifier returns a
    non-empty list, and a limit that is not negative, [detectLanguages]
    returns one result per candidate among the first [limit], in the
    classifier's order; the confidence of each is its score divided by the
    sum of the scores of exactly those candidates (0 when that sum is not
    positive).  With limit 3 and the scores 9, 3, 3 the confidences are
    0.6, 0.2, 0.2, which add up to 1. *)
Theorem detectLanguages_window text limit :
  text ≠ EmptyString → 10 ≤ JS.length (JS.trim text) → francAll text 3 ≠ [] →
  0 ≤ limit →
  let kept := firstn (Z.to_nat limit) (francAll text 3) in
  let totalScore := sumScores kept in
  detectLanguages text limit = map (toResult totalScore) kept
  ∧ map rawCode (detectLanguages text limit) = map fst kept
  ∧ ((0 < totalScore)%Qc →
     map confidence (detectLanguages text limit)
     = map (λ candidate, (candidate.2 / totalScore)%Qc) kept)
  ∧ (¬ (0 < totalScore)%Qc →
     map confidence (detectLanguages text limit) = map (λ _, 0%Qc) kept)
  ∧ (∀ a b c,
       limit = 3 →
       francAll text 3 = [ (a, Q2Qc 9); (b, Q2Qc 3); (c, Q2Qc 3) ] →
       map confidence (detectLanguages text limit)
       = [ Q2Qc 0.6; Q2Qc 0.2; Q2Qc 0.2 ]
       ∧ (Q2Qc 0.6 + Q2Qc 0.2 + Q2Qc 0.2 = 1)%Qc).
Proof.
  intros Htext Hlen Hres Hlimit kept totalScore.
  pose proof (detectLanguages_kept text limit Htext Hlen Hres Hlimit) as Hrun.
  fold kept in Hrun. fold totalScore in Hrun. rewrite Hrun.
  split; [done|]. rewrite !map_map. split; [done|].
  split; [|split].
  - intros Hpos. apply map_ext. intros candidate. cbn.
    by rewrite decide_True.
  - intros Hzero. apply map_ext. intros candidate. cbn.
    by rewrite decide_False.
  - intros a b c -> Hfranc. subst totalScore kept. rewrite Hfranc.
    change (Z.to_nat 3) with 3%nat. cbn [firstn map].
    split; [|by Qc_computation].
    repeat (f_equal; try by Qc_computation).
Qed.

(** C10. [detectLanguages] has no case for an undetermined top candidate.
    Past the guards, when the classifier's first candidate is "und" and at
    least one result is asked for, the first result of [detectLanguages]
    is that candidate: "und" is not in the code table, its first two code
    units "un" are not a supported code, so the code is "en" with
    [isSupported = false] and raw code "und", and the confidence is the
    normalized score, which is 1 when "und" is the only candidate and its
    score is positive.  [detectLanguage] on the same text returns the
    undetermined result: confidence 0 and [isSupported = true]. *)
Theorem detectLanguages_undetermined text limit minLength topScore rest :
  text ≠ EmptyString → 10 ≤ JS.length (JS.trim text) →
  francAll text 3 = ("und"%string, topScore) :: rest →
  1 ≤ limit →
  let totalScore := sumScores (firstn (Z.to_nat limit) (francAll text 3)) in
  let normalized :=
    if decide (0 < totalScore)%Qc then (topScore / totalScore)%Qc else 0%Qc in
  (∃ others,
     detectLanguages text limit =
       {| code := "en"; confidence := normalized; isSupported := false;
          rawCode := "und" |} :: others)
  ∧ or_else (get ISO_639_3_TO_639_1 "und") (VString (JS.substring0 2 "und"))
    = VString "un"
  ∧ (rest = [] → (0 < topScore)%Qc → normalized = 1%Qc)
  ∧ detectLanguage text minLength =
      {| code := "en"; confidence := 0%Qc; isSupported := true; rawCode := "und" |}.
Proof.
  intros Htext Hlen Hfranc Hlimit totalScore normalized.
  split; [|split; [by vm_compute|split]].
  - rewrite detectLanguages_kept; [|done|done|by rewrite Hfranc|lia].
    fold totalScore. rewrite Hfranc.
    destruct (Z.to_nat limit) as [|n] eqn:Hn; [lia|].
    cbn [firstn map]. eexists. f_equal.
  - intros -> Hpos. subst normalized totalScore. rewrite Hfranc.
    destruct (Z.to_nat limit) as [|n] eqn:Hn; [lia|].
    cbn [firstn]. rewrite firstn_nil.
    unfold sumScores; cbn. rewrite Qcplus_0_l.
    rewrite decide_True by done.
    apply Qcmult_inv_r. intros ->. by apply Qclt_not_eq in Hpos.
  - apply detectLanguage_no_candidate. right. eauto.
Qed.

(** ** The resolver's guarantees, away from the inherited names *)

(** From a reachable state and for a code whose normalized form is not a
    name inherited from [Object.prototype], [getLanguageData] returns a
    dataset object and leaves a reachable state, and the four field
    projections return the fields of that object. *)
Theorem resolver_returns langCode st :
  cache_ok st → ¬ inherited (normalize langCode) →
  ∃ obj st',
    getLanguageData langCode st = Returns (Some obj) st'
    ∧ cache_ok st'
    ∧ getSpamWords langCode st = Returns (spamWords (dataset obj)) st'
    ∧ getHamWords langCode st = Returns (hamWords (dataset obj)) st'
    ∧ getBayesianTokens langCode st = Returns (bayesianTokens (dataset obj)) st'
    ∧ getUrgencyWords langCode st = Returns (urgencyWords (dataset obj)) st'.
Proof.
  intros Hok Hinh.
  destruct (getLanguageData_returns langCode st Hok Hinh) as (obj & st' & Hget & Hok').
  exists obj, st'. unfold getSpamWords, getHamWords, getBayesianTokens,
    getUrgencyWords, project, mbind, M_bind. by rewrite Hget.
Qed.

(** [preloadAllLanguages] and [clearCache] return from every reachable
    state and leave a reachable state; after the preload every registered
    code is cached. *)
Theorem resolver_preload_clear st :
  cache_ok st →
  (∃ st', preloadAllLanguages st = Returns tt st'
          ∧ cache_ok st'
          ∧ ∀ key, key ∈ SUPPORTED_LANGUAGES → is_Some (datasetCache st' !! key))
  ∧ (∃ st', clearCache st = Returns tt st' ∧ cache_ok st' ∧ datasetCache st' = ∅).
Proof.
  intros Hok. split.
  - destruct (preloadAllLanguages_returns st Hok) as (st' & ? & ? & _ & ?). eauto.
  - eexists. split; [reflexivity|]. split; [|done].
    intros key obj; cbn. by rewrite lookup_empty.
Qed.

(** Two codes with the same normalized form, not an inherited name, are
    served the identical object by two calls in a row. *)
Theorem resolver_identical a b st :
  cache_ok st → normalize a = normalize b → ¬ inherited (normalize a) →
  ∃ obj st1 st2,
    getLanguageData a st = Returns (Some obj) st1
    ∧ getLanguageData b st1 = Returns (Some obj) st2.
Proof.
  intros Hok Hab Hinh.
  destruct (getLanguageData_returns a st Hok Hinh) as (obj & st1 & Ha & Hok1).
  destruct (getLanguageData_identical a b st obj st1 st1 Hok Hab Ha Hok1)
    as [st2 Hb]; [done|].
  by exists obj, st1, st2.
Qed.

(** A code whose normalized form is neither registered nor an inherited
    name is served the processed English dataset, with one more warning on
    the console; such a code is never "en". *)
Theorem resolver_fallback langCode st :
  cache_ok st →
  normalize langCode ∉ SUPPORTED_LANGUAGES →
  ¬ inherited (normalize langCode) →
  ∃ obj st',
    getLanguageData langCode st = Returns (Some obj) st'
    ∧ dataset obj = processed (enData json)
    ∧ normalize langCode ≠ "en"%string
    ∧ console st' =
        ("Language " +:+ quote +:+ normalize langCode +:+ quote
         +:+ " not available, falling back to English") :: console st.
Proof.
  intros Hok Hreg Hinh.
  assert (Hown : JS.own languageDataMap (normalize langCode) = None).
  { destruct (JS.own languageDataMap (normalize langCode)) eqn:Hown; [|done].
    destruct Hreg. apply own_supported. by eexists. }
  destruct (getLanguageData_fallback langCode st Hok Hown Hinh)
    as (obj & st' & ? & ? & _ & ? & ?).
  by exists obj, st'.
Qed.

(** For a code whose normalized form is not an inherited name,
    [hasLanguageData] is true exactly when the normalized code is one of
    the nine registered codes, which are the codes
    [getAvailableLanguages] lists. *)
Theorem resolver_available langCode :
  ¬ inherited (normalize langCode) →
  (hasLanguageData langCode = true ↔ normalize langCode ∈ SUPPORTED_LANGUAGES)
  ∧ getAvailableLanguages = SUPPORTED_LANGUAGES.
Proof.
  intros Hinh. split; [by apply hasLanguageData_registered|reflexivity].
Qed.

(** ** The five paths of [getLanguageData], from a reachable state *)

Lemma getLanguageData_cases langCode st :
  cache_ok st →
  let key := normalize langCode in
  (∃ obj, datasetCache st !! key = Some obj
          ∧ getLanguageData langCode st = Returns (Some obj) st)
  ∨ (∃ raw, datasetCache st !! key = None ∧ registered key raw
            ∧ getLanguageData langCode st =
                Returns (Some {| ref := nextRef st; dataset := processed raw |})
                        (cached key raw st))
  ∨ (inherited key
     ∧ getLanguageData langCode st =
         Throws (TypeError "Cannot read properties of undefined (reading 'map')") st)
  ∨ (JS.own languageDataMap key = None ∧ ¬ inherited key
     ∧ ∃ enObj, datasetCache st !! "en"%string = Some enObj
                ∧ getLanguageData langCode st = Returns (Some enObj) (warned key st))
  ∨ (JS.own languageDataMap key = None ∧ ¬ inherited key
     ∧ datasetCache st !! "en"%string = None
     ∧ getLanguageData langCode st =
         Returns (Some {| ref := nextRef st; dataset := processed (enData json) |})
                 (warned key (cached "en" (enData json) st))).
Proof.
  intros Hok key.
  destruct (get_languageDataMap key (normalize_lower langCode))
    as [(raw & Hreg & Hget) | [(Hown & Hinh & Hget) | (Hown & Hinh & Hget)]].
  - destruct (datasetCache st !! key) as [obj|] eqn:Hc.
    + left. exists obj. split; [done|]. by apply getLanguageData_hit.
    + right; left. exists raw. split; [done|]. split; [done|].
      by apply getLanguageData_load.
  - right; right; left. split; [done|].
    eapply getLanguageData_inherited; [|done]. by apply cache_ok_unregistered.
  - pose proof (cache_ok_unregistered _ _ Hok Hown) as Hc.
    destruct (datasetCache st !! "en"%string) as [enObj|] eqn:Hen.
    + right; right; right; left. split; [done|]. split; [done|].
      exists enObj. split; [done|]. by apply getLanguageData_fallback_cached.
    + right; right; right; right. split; [done|]. split; [done|]. split; [done|].
      by apply getLanguageData_fallback_fresh.
Qed.

(** ** Reachable states *)

Lemma cache_distinct_cached st key raw :
  cache_ok st → cache_distinct st → datasetCache st !! key = None →
  cache_distinct (cached key raw st).
Proof.
  intros Hok Hdist Hnone key1 key2 obj1 obj2; cbn.
  rewrite !lookup_insert. repeat case_decide; subst.
  - done.
  - intros [= <-] H2 Href; cbn in Href.
    destruct (Hok _ _ H2) as (_ & _ & _ & Hlt). lia.
  - intros H1 [= <-] Href; cbn in Href.
    destruct (Hok _ _ H1) as (_ & _ & _ & Hlt). lia.
  - apply Hdist.
Qed.

Lemma cache_ok_cached st key raw :
  cache_ok st → registered key raw → cache_ok (cached key raw st).
Proof. apply cache_ok_insert. Qed.

(** The two invariants, and that the allocator only moves forward, across
    one call of [getLanguageData]. *)
Lemma getLanguageData_keeps langCode st :
  cache_ok st → cache_distinct st →
  cache_ok (after (getLanguageData langCode st))
  ∧ cache_distinct (after (getLanguageData langCode st)).
Proof.
  intros Hok Hdist.
  destruct (getLanguageData_cases langCode st Hok)
    as [(obj & _ & ->) | [(raw & Hnone & Hreg & ->) | [(_ & ->)
       | [(_ & _ & enObj & _ & ->) | (_ & _ & Hnone & ->)]]]]; cbn [after].
  - done.
  - split; [by apply cache_ok_cached|by apply cache_distinct_cached].
  - done.
  - done.
  - split.
    + apply cache_ok_warned, cache_ok_cached; [done|apply registered_en].
    + apply (cache_distinct_cached st "en" (enData json)); done.
Qed.

Lemma project_after {A : Type} (field : LanguageDataset → A) member langCode st :
  after (project field member langCode st) = after (getLanguageData langCode st).
Proof.
  unfold project, mbind, M_bind.
  destruct (getLanguageData langCode st) as [[obj|] st'|e st']; done.
Qed.

Lemma preloadEntries_keeps entries st :
  (∀ key v, (key, v) ∈ entries → ∃ raw, v = VRaw raw ∧ registered key raw) →
  cache_ok st → cache_distinct st →
  cache_ok (after (preloadEntries entries st))
  ∧ cache_distinct (after (preloadEntries entries st)).
Proof.
  revert st. induction entries as [|[key v] entries IH]; intros st Hentries Hok Hdist.
  - done.
  - destruct (Hentries key v) as (raw & -> & Hreg); [left|].
    assert (Hrest : ∀ k w, (k, w) ∈ entries → ∃ r, w = VRaw r ∧ registered k r)
      by (intros k w Hin; apply Hentries; by right).
    cbn [preloadEntries]. unfold mbind, M_bind.
    destruct (datasetCache st !! key) as [obj|] eqn:Hc.
    + rewrite (cache_has_Some _ _ _ Hc). cbn. by apply IH.
    + rewrite (cache_has_None _ _ Hc). cbn.
      apply (IH (cached key raw st)); [done|by apply cache_ok_cached|].
      by apply cache_distinct_cached.
Qed.

Lemma reachable_keeps st : reachable st → cache_ok st ∧ cache_distinct st.
Proof.
  induction 1 as [|langCode st _ [Hok Hdist]|A field member langCode st _ [Hok Hdist]
                  |st _ [Hok Hdist]|st _ [Hok Hdist]].
  - split; [apply cache_ok_initial|].
    intros k1 k2 o1 o2; unfold initial; cbn. by rewrite lookup_empty.
  - by apply getLanguageData_keeps.
  - rewrite project_after. by apply getLanguageData_keeps.
  - apply preloadEntries_keeps; [apply languageDataMap_entries|done|done].
  - split.
    + intros key obj; cbn. by rewrite lookup_empty.
    + intros k1 k2 o1 o2; cbn. by rewrite lookup_empty.
Qed.

Lemma cache_ok_supported st key :
  cache_ok st → is_Some (datasetCache st !! key) → key ∈ SUPPORTED_LANGUAGES.
Proof.
  intros Hok [obj Hc]. destruct (Hok _ _ Hc) as (raw & Hreg & _).
  apply own_supported. by eexists.
Qed.

Lemma normalize_supported key : key ∈ SUPPORTED_LANGUAGES → normalize key = key.
Proof.
  unfold SUPPORTED_LANGUAGES. intros Hin.
  repeat (apply elem_of_cons in Hin as [->|Hin]; [reflexivity|]).
  by apply elem_of_nil in Hin.
Qed.

Lemma supported_not_inherited key : key ∈ SUPPORTED_LANGUAGES → ¬ inherited key.
Proof.
  intros [v Hv]%own_supported [-> | ->]; discriminate Hv.
Qed.

Lemma registered_functional key raw1 raw2 :
  registered key raw1 → registered key raw2 → raw1 = raw2.
Proof. unfold registered. congruence. Qed.

(** A code that is served from key [servedFrom] gets the processed dataset
    registered under that key. *)
Lemma served_dataset st key obj :
  cache_ok st → datasetCache st !! key = Some obj →
  ∃ raw, registered key raw ∧ dataset obj = processed raw ∧ (ref obj < nextRef st)%nat.
Proof. intros Hok Hc. exact (Hok _ _ Hc). Qed.

(** ** What a user of the resolver can rely on *)

(** From a reachable state [getLanguageData] throws exactly on the codes
    whose normalized form is "constructor" or "__proto__"; when it throws,
    it is a TypeError and the module state is untouched. *)
Theorem resolver_throws_exactly langCode st :
  reachable st →
  ((∃ e st', getLanguageData langCode st = Throws e st')
   ↔ normalize langCode = "constructor"%string ∨ normalize langCode = "__proto__"%string)
  ∧ (∀ e st', getLanguageData langCode st = Throws e st' →
       st' = st
       ∧ e = TypeError "Cannot read properties of undefined (reading 'map')").
Proof.
  intros [Hok _]%reachable_keeps.
  destruct (getLanguageData_spec langCode st Hok)
    as [[Hinh Hthrow] | (Hinh & obj & st1 & Hret & _)]; rewrite ?Hthrow, ?Hret.
  - split; [split; [done|eauto]|]. by intros e st' [= <- <-].
  - split; [|done]. split; [by intros (e & st' & ?)|done].
Qed.

(** A code for which [hasLanguageData] answers false never throws: it is
    served the processed English dataset after one warning. *)
Theorem resolver_guarded langCode st :
  reachable st → hasLanguageData langCode = false →
  ∃ obj st',
    getLanguageData langCode st = Returns (Some obj) st'
    ∧ dataset obj = processed (enData json)
    ∧ console st' =
        ("Language " +:+ quote +:+ normalize langCode +:+ quote
         +:+ " not available, falling back to English") :: console st.
Proof.
  intros [Hok _]%reachable_keeps Hhas.
  unfold hasLanguageData in Hhas. fold (normalize langCode) in Hhas.
  destruct (get_languageDataMap _ (normalize_lower langCode))
    as [(raw & _ & Hget) | [(_ & _ & Hget) | (Hown & Hinh & _)]];
    [by rewrite Hget in Hhas..|].
  destruct (getLanguageData_fallback langCode st Hok Hown Hinh)
    as (obj & st' & ? & ? & _ & _ & ?).
  by exists obj, st'.
Qed.

(** Every code [getAvailableLanguages] lists has data: [hasLanguageData]
    is true for it, [getLanguageData] serves the processed dataset
    registered under it without a warning, and a second call is a pure
    cache hit that returns the identical object and changes nothing. *)
Theorem resolver_available_served langCode st :
  reachable st → langCode ∈ getAvailableLanguages →
  hasLanguageData langCode = true
  ∧ ∃ raw obj st',
      JS.own languageDataMap langCode = Some (VRaw raw)
      ∧ getLanguageData langCode st = Returns (Some obj) st'
      ∧ dataset obj = processed raw
      ∧ console st' = console st
      ∧ getLanguageData langCode st' = Returns (Some obj) st'.
Proof.
  intros [Hok _]%reachable_keeps Hin.
  change getAvailableLanguages with SUPPORTED_LANGUAGES in Hin.
  pose proof (normalize_supported _ Hin) as Hnorm.
  pose proof (supported_not_inherited _ Hin) as Hinh.
  split.
  { apply hasLanguageData_registered; by rewrite Hnorm. }
  destruct (getLanguageData_spec langCode st Hok)
    as [[Hbad _] | (_ & obj & st' & Hret & Hok' & Hserved & _ & Hconsole)].
  { by rewrite Hnorm in Hbad. }
  rewrite Hnorm in Hserved, Hconsole.
  rewrite bool_decide_true in Hconsole by done.
  unfold servedFrom in Hserved. rewrite bool_decide_true in Hserved by done.
  destruct (served_dataset _ _ _ Hok' Hserved) as (raw & Hreg & Hdata & _).
  exists raw, obj, st'. repeat split; try done.
  apply getLanguageData_hit. by rewrite Hnorm.
Qed.

(** After [clearCache] a code that was served before is served again from
    a freshly built object: a different object, allocated later, holding
    an equal dataset. *)
Theorem resolver_clear_rematerializes langCode st obj st1 :
  reachable st →
  getLanguageData langCode st = Returns (Some obj) st1 →
  ∃ obj' st3,
    getLanguageData langCode (after (clearCache st1)) = Returns (Some obj') st3
    ∧ dataset obj' = dataset obj
    ∧ (ref obj < ref obj')%nat.
Proof.
  intros [Hok _]%reachable_keeps Hfirst.
  destruct (getLanguageData_spec langCode st Hok)
    as [[_ Hthrow] | (Hinh & obj0 & st0 & Hret & Hok1 & Hserved & _)];
    [congruence|].
  rewrite Hfirst in Hret. injection Hret as <- <-.
  destruct (served_dataset _ _ _ Hok1 Hserved) as (raw & Hreg & Hdata & Href).
  set (st2 := after (clearCache st1)).
  assert (Hok2 : cache_ok st2)
    by (intros key o; unfold st2; cbn; by rewrite lookup_empty).
  assert (Hempty : ∀ key, datasetCache st2 !! key = None)
    by (intros key; unfold st2; cbn; apply lookup_empty).
  destruct (getLanguageData_cases langCode st2 Hok2)
    as [(o & Hc & _) | [(raw' & _ & Hreg' & Hrun) | [(Hbad & _)
       | [(_ & _ & o & Hc & _) | (Hown & _ & _ & Hrun)]]]].
  - by rewrite Hempty in Hc.
  - eexists _, _. split; [exact Hrun|]. cbn.
    rewrite (servedFrom_registered _ _ Hreg') in Hreg.
    by rewrite Hdata, (registered_functional _ _ _ Hreg Hreg').
  - done.
  - by rewrite Hempty in Hc.
  - eexists _, _. split; [exact Hrun|]. cbn.
    rewrite (servedFrom_unregistered _ Hown) in Hreg.
    by rewrite Hdata, (registered_functional _ _ _ Hreg registered_en).
Qed.

Lemma preloadEntries_cached entries st :
  (∀ key v, (key, v) ∈ entries → is_Some (datasetCache st !! key)) →
  preloadEntries entries st = Returns tt st.
Proof.
  induction entries as [|[key v] entries IH]; intros Hall; [done|].
  destruct (Hall key v) as [obj Hc]; [left|].
  cbn [preloadEntries]. unfold mbind, M_bind.
  rewrite (cache_has_Some _ _ _ Hc). rewrite andb_false_r. cbn.
  apply IH. intros k w Hin. apply (Hall k w). by right.
Qed.

(** [preloadAllLanguages] is idempotent, and warms the cache: after it, no
    call of [getLanguageData] that returns builds an object or touches the
    cache. *)
Theorem resolver_preload_warm st st' :
  reachable st → preloadAllLanguages st = Returns tt st' →
  preloadAllLanguages st' = Returns tt st'
  ∧ ∀ langCode obj st'',
      getLanguageData langCode st' = Returns (Some obj) st'' →
      datasetCache st'' = datasetCache st' ∧ nextRef st'' = nextRef st'
      ∧ datasetCache st' !! servedFrom (normalize langCode) = Some obj.
Proof.
  intros [Hok _]%reachable_keeps Hrun.
  destruct (preloadAllLanguages_returns st Hok) as (st0 & Hrun0 & Hok' & _ & Hall).
  rewrite Hrun in Hrun0. injection Hrun0 as <-.
  split.
  - apply preloadEntries_cached. intros key v Hin. apply Hall.
    destruct (languageDataMap_entries key v Hin) as (raw & _ & Hreg).
    apply own_supported. by eexists.
  - intros langCode obj st'' Hget.
    assert (Hen : is_Some (datasetCache st' !! "en"%string))
      by (apply Hall; by_computation).
    destruct (getLanguageData_cases langCode st' Hok')
      as [(o & Hc & Hrun1) | [(raw & Hnone & Hreg & _) | [(_ & Hrun1)
         | [(Hown & _ & o & Hc & Hrun1) | (_ & _ & Hnone & _)]]]].
    + rewrite Hget in Hrun1. injection Hrun1 as -> ->.
      destruct (served_dataset _ _ _ Hok' Hc) as (raw & Hreg & _).
      by rewrite (servedFrom_registered _ _ Hreg).
    + destruct (Hall (normalize langCode)) as [o Ho];
        [apply own_supported; by eexists|congruence].
    + congruence.
    + rewrite Hget in Hrun1. injection Hrun1 as -> ->.
      by rewrite (servedFrom_unregistered _ Hown).
    + destruct Hen as [o Ho]. congruence.
Qed.

Lemma NoDup_SUPPORTED_LANGUAGES : NoDup SUPPORTED_LANGUAGES.
Proof. by_computation. Qed.

(** In every reachable state the cache holds at most nine entries, each
    under one of the nine registered codes and holding that code's
    processed dataset, and no object sits under two keys: calls with
    unknown codes never grow the cache. *)
Theorem reachable_cache_bounded st :
  reachable st →
  (size (datasetCache st) ≤ 9)%nat
  ∧ (∀ key obj, datasetCache st !! key = Some obj →
       key ∈ SUPPORTED_LANGUAGES
       ∧ ∃ raw, JS.own languageDataMap key = Some (VRaw raw)
                ∧ dataset obj = processed raw)
  ∧ (∀ key1 key2 obj, datasetCache st !! key1 = Some obj →
       datasetCache st !! key2 = Some obj → key1 = key2).
Proof.
  intros [Hok Hdist]%reachable_keeps. split; [|split].
  - rewrite <- size_dom.
    transitivity (size (list_to_set (C := gset string) SUPPORTED_LANGUAGES)).
    + apply subseteq_size. intros key Hin%elem_of_dom.
      apply elem_of_list_to_set. by eapply cache_ok_supported.
    + by rewrite (size_list_to_set _ NoDup_SUPPORTED_LANGUAGES).
  - intros key obj Hc. split; [eapply cache_ok_supported; eauto|].
    destruct (Hok _ _ Hc) as (raw & ? & ? & _). eauto.
  - intros key1 key2 obj H1 H2. by apply (Hdist key1 key2 obj obj).
Qed.

(** Two calls in a row, neither on an inherited name, return the identical
    object exactly when the two codes are served from the same cache key:
    the same registered code, or both falling back to English (an unknown
    code shares the object of "en"). *)
Theorem resolver_object_identity a b st obj1 st1 obj2 st2 :
  reachable st →
  getLanguageData a st = Returns (Some obj1) st1 →
  getLanguageData b st1 = Returns (Some obj2) st2 →
  (ref obj1 = ref obj2 ↔ servedFrom (normalize a) = servedFrom (normalize b))
  ∧ (ref obj1 = ref obj2 → obj1 = obj2).
Proof.
  intros Hreach Ha Hb.
  assert (Hreach1 : reachable st1).
  { replace st1 with (after (getLanguageData a st)) by (by rewrite Ha).
    by constructor. }
  assert (Hreach2 : reachable st2).
  { replace st2 with (after (getLanguageData b st1)) by (by rewrite Hb).
    by constructor. }
  destruct (reachable_keeps _ Hreach) as [Hok _].
  destruct (reachable_keeps _ Hreach1) as [Hok1 _].
  destruct (reachable_keeps _ Hreach2) as [_ Hdist2].
  destruct (getLanguageData_spec a st Hok)
    as [[_ Hthrow] | (_ & o & s0 & Hret & _ & Hserved1 & _)]; [congruence|].
  rewrite Ha in Hret. injection Hret as <- <-.
  destruct (getLanguageData_spec b st1 Hok1)
    as [[_ Hthrow] | (_ & o & s0 & Hret & _ & Hserved2 & Hsub & _)]; [congruence|].
  rewrite Hb in Hret. injection Hret as <- <-.
  eapply lookup_weaken in Hserved1; [|exact Hsub].
  assert (Hiff : ref obj1 = ref obj2
                 ↔ servedFrom (normalize a) = servedFrom (normalize b)).
  { split.
    - intros Href. by apply (Hdist2 _ _ obj1 obj2).
    - intros Heq. rewrite Heq in Hserved1. congruence. }
  split; [exact Hiff|].
  intros Heq%Hiff. rewrite Heq in Hserved1. congruence.
Qed.

(** An available code is served the processed dataset registered under
    it. *)
Lemma resolver_available_served_aux langCode st :
  reachable st → langCode ∈ getAvailableLanguages →
  ∃ raw obj st',
    JS.own languageDataMap langCode = Some (VRaw raw)
    ∧ getLanguageData langCode st = Returns (Some obj) st'
    ∧ dataset obj = processed raw.
Proof.
  intros [Hok _]%reachable_keeps Hin.
  change getAvailableLanguages with SUPPORTED_LANGUAGES in Hin.
  pose proof (normalize_supported _ Hin) as Hnorm.
  destruct (getLanguageData_spec langCode st Hok)
    as [[Hbad _] | (_ & obj & st' & Hret & Hok' & Hserved & _)].
  { rewrite Hnorm in Hbad. by apply supported_not_inherited in Hin. }
  rewrite Hnorm in Hserved.
  unfold servedFrom in Hserved. rewrite bool_decide_true in Hserved by done.
  destruct (served_dataset _ _ _ Hok' Hserved) as (raw & Hreg & Hdata & _).
  by exists raw, obj, st'.
Qed.

(** The projections hand out the raw JSON: for an available code each of
    them returns the field of the registered raw dataset, unchanged. *)
Theorem resolver_projections langCode st raw :
  reachable st → JS.own languageDataMap langCode = Some (VRaw raw) →
  ∃ st',
    getSpamWords langCode st = Returns (raw_spamWords raw) st'
    ∧ getHamWords langCode st = Returns (raw_hamWords raw) st'
    ∧ getBayesianTokens langCode st = Returns (raw_bayesianTokens raw) st'
    ∧ getUrgencyWords langCode st = Returns (raw_urgencyWords raw) st'
    ∧ (∃ obj, getLanguageData langCode st = Returns (Some obj) st'
              ∧ spamSubjectPatterns (dataset obj) = raw_spamSubjectPatterns raw
              ∧ language (dataset obj) = raw_language raw).
Proof.
  intros Hreach Hown.
  assert (Hin : langCode ∈ getAvailableLanguages)
    by (apply own_supported; by eexists).
  destruct (resolver_available_served_aux langCode st Hreach Hin)
    as (raw' & obj & st' & Hown' & Hget & Hdata).
  rewrite Hown in Hown'. injection Hown' as <-.
  exists st'.
  unfold getSpamWords, getHamWords, getBayesianTokens, getUrgencyWords,
    project, mbind, M_bind. rewrite Hget, Hdata. cbn.
  repeat split; try done.
  exists obj. rewrite Hdata. cbn. repeat split; try done.
  clear. induction (raw_spamSubjectPatterns raw) as [|[? ? ?] l IH]; [done|].
  cbn. by rewrite IH.
Qed.

(** ** Scores and ratios *)

Lemma sumScores_from (xs : list (string * Qc)) (start : Qc) :
  fold_left (λ sum cs, (sum + cs.2)%Qc) xs start = (start + sumScores xs)%Qc.
Proof.
  unfold sumScores. revert start.
  induction xs as [|x xs IH]; intros start; cbn.
  - by rewrite Qcplus_0_r.
  - rewrite IH, (IH (0 + x.2)%Qc), Qcplus_0_l. symmetry. apply Qcplus_assoc.
Qed.

Lemma sumScores_cons x xs : sumScores (x :: xs) = (x.2 + sumScores xs)%Qc.
Proof.
  unfold sumScores at 1. cbn. by rewrite sumScores_from, Qcplus_0_l.
Qed.

Lemma sumScores_nonnegative xs : nonnegative xs → (0 ≤ sumScores xs)%Qc.
Proof.
  induction 1 as [|x xs Hx _ IH]; [done|].
  rewrite sumScores_cons. by apply Qcplus_nonneg_nonneg.
Qed.

Lemma sumScores_bounds x xs :
  nonnegative xs → x ∈ xs → (x.2 ≤ sumScores xs)%Qc.
Proof.
  induction 1 as [|y ys Hy Hys IH]; [by intros ?%elem_of_nil|].
  rewrite sumScores_cons. intros [-> | Hin]%elem_of_cons.
  - rewrite <- (Qcplus_0_r y.2) at 1. apply Qcplus_le_mono_l.
    by apply sumScores_nonnegative.
  - rewrite <- (Qcplus_0_l x.2). apply Qcplus_le_compat; auto.
Qed.

Lemma ratio_unit (x total : Qc) :
  (0 ≤ x)%Qc → (x ≤ total)%Qc → (0 < total)%Qc → (0 ≤ x / total ≤ 1)%Qc.
Proof.
  intros Hx Hle Hpos. pose proof (Qcinv_pos _ Hpos) as Hinv.
  unfold Qcdiv. split.
  - apply Qcmult_nonneg_nonneg; [done|by apply Qclt_le_weak].
  - rewrite <- (Qcmult_inv_r total) by (intros ->; by apply Qclt_not_eq in Hpos).
    by apply Qcmult_le_mono_nonneg_r; [apply Qclt_le_weak|].
Qed.

(** The confidence [detectLanguages] gives a candidate, on its own. *)
Lemma normalized_unit (x total : Qc) :
  (0 ≤ x)%Qc → (x ≤ total)%Qc →
  (0 ≤ (if decide (0 < total)%Qc then (x / total)%Qc else 0%Qc) ≤ 1)%Qc.
Proof.
  intros Hx Hle. case_decide; [by apply ratio_unit|done].
Qed.

Lemma finalCode_supported v : finalCode v ∈ SUPPORTED_LANGUAGES.
Proof.
  unfold finalCode, isSupportedLanguage.
  destruct v; try (apply (bool_decide_unpack _); by vm_compute).
  case_bool_decide; [done|]. apply (bool_decide_unpack _); by vm_compute.
Qed.

Lemma finalCode_unsupported v : isSupportedLanguage v = false → finalCode v = "en"%string.
Proof. intros H. unfold finalCode. by rewrite H. Qed.

(** ** What a user of the detectors can rely on *)

(** Every result of [detectLanguage] carries one of the nine supported
    codes; an unsupported detection is reported under "en"; and a raw code
    "und" only ever comes with the undetermined result (confidence 0). *)
Theorem detectLanguage_result_shape text minLength :
  let r := detectLanguage text minLength in
  code r ∈ SUPPORTED_LANGUAGES
  ∧ (isSupported r = false → code r = "en"%string)
  ∧ (rawCode r = "und"%string →
     r = {| code := "en"; confidence := 0%Qc; isSupported := true; rawCode := "und" |}).
Proof.
  assert (Hen : "en"%string ∈ SUPPORTED_LANGUAGES) by by_computation.
  cbn zeta. unfold detectLanguage.
  destruct (_ || _); [by cbn|].
  destruct (francAll text 3) as [|[topCode topScore] rest]; [by cbn|].
  destruct (String.eqb_spec topCode "und") as [->|Hne]; [by cbn|].
  cbn. split; [apply finalCode_supported|].
  split; [apply finalCode_unsupported|done].
Qed.

Lemma detectLanguage_unit text minLength :
  (0 ≤ confidence (detectLanguage text minLength) ≤ 1)%Qc.
Proof.
  unfold detectLanguage.
  repeat case_match; cbn [confidence]; try done; apply clamp_unit.
Qed.

(** Every result of [detectEmailLanguage], on whichever path it is
    computed and whatever the weight, carries a supported code and a
    confidence between 0 and 1, and reports an unsupported detection under
    "en". *)
Theorem detectEmailLanguage_result_shape subject body subjectWeight :
  let r := detectEmailLanguage subject body subjectWeight in
  code r ∈ SUPPORTED_LANGUAGES
  ∧ (0 ≤ confidence r ≤ 1)%Qc
  ∧ (isSupported r = false → code r = "en"%string).
Proof.
  assert (Hshape : ∀ text minLength,
    let r := detectLanguage text minLength in
    code r ∈ SUPPORTED_LANGUAGES ∧ (0 ≤ confidence r ≤ 1)%Qc
    ∧ (isSupported r = false → code r = "en"%string)).
  { intros text minLength.
    destruct (detectLanguage_result_shape text minLength) as (? & ? & _).
    pose proof (detectLanguage_unit text minLength). done. }
  cbn zeta. unfold detectEmailLanguage.
  destruct (_ <? 50); [apply Hshape|].
  case_decide; [apply Hshape|].
  destruct (String.eqb _ _); [|case_decide; apply Hshape].
  destruct (Hshape body 10) as (Hcode & Hb & Hsup).
  destruct (Hshape subject 5) as (_ & Hs & _).
  cbn. split; [done|]. split; [|done].
  by destruct (Math_max_cases (confidence (detectLanguage subject 5))
                 (confidence (detectLanguage body 10))) as [-> | ->].
Qed.

(** Detection feeds the resolver safely: from a reachable state, the code
    of any result of [detectLanguage] or [detectEmailLanguage] is served
    its own registered dataset by [getLanguageData], without an exception
    and without a fallback warning. *)
Theorem detect_then_resolve st :
  reachable st →
  ∀ r,
    (∃ text minLength, r = detectLanguage text minLength)
    ∨ (∃ subject body subjectWeight,
         r = detectEmailLanguage subject body subjectWeight) →
    ∃ raw obj st',
      JS.own languageDataMap (code r) = Some (VRaw raw)
      ∧ getLanguageData (code r) st = Returns (Some obj) st'
      ∧ dataset obj = processed raw
      ∧ console st' = console st.
Proof.
  intros Hreach r Hr.
  assert (Hcode : code r ∈ SUPPORTED_LANGUAGES).
  { destruct Hr as [(text & minLength & ->) | (subject & body & w & ->)].
    - apply detectLanguage_result_shape.
    - apply detectEmailLanguage_result_shape. }
  destruct (reachable_keeps _ Hreach) as [Hok _].
  pose proof (normalize_supported _ Hcode) as Hnorm.
  destruct (getLanguageData_spec (code r) st Hok)
    as [[Hbad _] | (_ & obj & st' & Hret & Hok' & Hserved & _ & Hconsole)].
  { rewrite Hnorm in Hbad. by apply supported_not_inherited in Hcode. }
  rewrite Hnorm in Hserved, Hconsole.
  rewrite bool_decide_true in Hconsole by done.
  unfold servedFrom in Hserved. rewrite bool_decide_true in Hserved by done.
  destruct (served_dataset _ _ _ Hok' Hserved) as (raw & Hreg & Hdata & _).
  by exists raw, obj, st'.
Qed.

Lemma nonnegative_kept candidates n :
  nonnegative candidates → nonnegative (firstn n candidates).
Proof. apply Forall_take. Qed.

Lemma top_le_total top rest n :
  nonnegative (top :: rest) →
  (0 ≤ top.2)%Qc ∧ (top.2 ≤ sumScores (firstn (S n) (top :: rest)))%Qc.
Proof.
  intros Hnn. split; [by inversion Hnn|].
  apply sumScores_bounds; [by apply nonnegative_kept|]. cbn. by left.
Qed.

(** When the classifier keeps its contract (no negative score), the clamp
    of [detectLanguage] never cuts: past the guards, on a determinate top
    candidate, the confidence is the top score divided by the sum of the
    first five scores as it stands, or 0 when that sum is 0. *)
Theorem detectLanguage_ratio text minLength topCode topScore rest :
  text ≠ EmptyString → minLength ≤ JS.length (JS.trim text) →
  francAll text 3 = (topCode, topScore) :: rest → topCode ≠ "und"%string →
  nonnegative (francAll text 3) →
  let totalScore := sumScores (firstn 5 (francAll text 3)) in
  confidence (detectLanguage text minLength) =
    (if decide (0 < totalScore)%Qc then (topScore / totalScore)%Qc else 0%Qc).
Proof.
  intros Htext Hlen Hres Htop Hnn totalScore.
  rewrite (detectLanguage_top _ _ _ _ _ Htext Hlen Hres Htop). cbn [confidence].
  fold totalScore.
  assert (Hbounds : (0 ≤ topScore)%Qc ∧ (topScore ≤ totalScore)%Qc).
  { unfold totalScore. rewrite Hres in Hnn |- *.
    apply (top_le_total (topCode, topScore) rest 4 Hnn). }
  destruct Hbounds as [H0 Hle].
  by rewrite clamp_id by (by apply normalized_unit).
Qed.

(** With their default arguments the two detectors agree on the winner:
    under the classifier's contract, the first result of
    [detectLanguages(text)] is the result of [detectLanguage(text)]. *)
Theorem detectLanguages_head_agrees text topCode topScore rest :
  text ≠ EmptyString → 10 ≤ JS.length (JS.trim text) →
  francAll text 3 = (topCode, topScore) :: rest → topCode ≠ "und"%string →
  nonnegative (francAll text 3) →
  head (detectLanguages text default_limit)
  = Some (detectLanguage text default_minLength).
Proof.
  intros Htext Hlen Hres Htop Hnn.
  unfold default_limit, default_minLength.
  rewrite detectLanguages_kept; [|done|done|by rewrite Hres|done].
  rewrite (detectLanguage_top _ _ _ _ _ Htext Hlen Hres Htop).
  change (Z.to_nat 5) with 5%nat. rewrite Hres at 2. cbn [firstn map head].
  unfold toResult. cbn [fst snd]. do 2 f_equal.
  symmetry. apply clamp_id, normalized_unit.
  - rewrite Hres in Hnn. by inversion Hnn.
  - rewrite Hres in Hnn |- *. apply (top_le_total (topCode, topScore) rest 4 Hnn).
Qed.

(** Under the classifier's contract and for a limit that is not negative,
    every result of [detectLanguages] has a confidence between 0 and 1 and
    a supported code (the function itself does not clamp); when no kept
    score is positive, every confidence is 0. *)
Theorem detectLanguages_bounds text limit :
  text ≠ EmptyString → 10 ≤ JS.length (JS.trim text) → francAll text 3 ≠ [] →
  0 ≤ limit → nonnegative (francAll text 3) →
  let totalScore := sumScores (firstn (Z.to_nat limit) (francAll text 3)) in
  Forall (λ r, (0 ≤ confidence r ≤ 1)%Qc ∧ code r ∈ SUPPORTED_LANGUAGES)
         (detectLanguages text limit)
  ∧ (¬ (0 < totalScore)%Qc →
     Forall (λ r, confidence r = 0%Qc) (detectLanguages text limit)).
Proof.
  intros Htext Hlen Hres Hlimit Hnn totalScore.
  rewrite (detectLanguages_kept text limit Htext Hlen Hres Hlimit).
  fold totalScore.
  pose proof (nonnegative_kept _ (Z.to_nat limit) Hnn) as Hkept.
  split.
  - apply Forall_map, Forall_forall. intros x Hx. cbn.
    split; [|apply finalCode_supported].
    apply normalized_unit.
    + unfold nonnegative in Hkept. rewrite Forall_forall in Hkept. by apply Hkept.
    + by apply sumScores_bounds.
  - intros Hzero. apply Forall_map, Forall_forall. intros x _. cbn.
    by rewrite decide_False.
Qed.

(** How many results [detectLanguages] returns.  Its guards answer with
    exactly one undetermined result whatever the limit, even 0.  Past them
    a limit that is not negative keeps [min limit n] of the [n]
    candidates, so limit 0 gives the empty list, and a negative limit
    drops that many candidates from the end of the ranking. *)
Theorem detectLanguages_length text limit :
  (text = EmptyString ∨ JS.length (JS.trim text) < 10 ∨ francAll text 3 = [] →
   detectLanguages text limit =
     [ {| code := "en"; confidence := 0%Qc; isSupported := true; rawCode := "und" |} ])
  ∧ (text ≠ EmptyString → 10 ≤ JS.length (JS.trim text) → francAll text 3 ≠ [] →
     let n := Z.of_nat (List.length (francAll text 3)) in
     Z.of_nat (List.length (detectLanguages text limit))
     = (if limit <? 0 then Z.max (n + limit) 0 else Z.min limit n)
     ∧ (limit = 0 → detectLanguages text limit = [])).
Proof.
  split.
  - intros Hguard. unfold detectLanguages.
    destruct Hguard as [-> | [Hshort | Hnone]]; [done| |].
    + apply Z.ltb_lt in Hshort. rewrite Hshort. by rewrite orb_true_r.
    + rewrite Hnone. by destruct (_ || _).
  - intros Htext Hlen Hres n.
    assert (Hrun : detectLanguages text limit =
      map (toResult (sumScores (JS.slice0 (francAll text 3) limit)))
          (JS.slice0 (francAll text 3) limit)).
    { unfold detectLanguages.
      apply String.eqb_neq in Htext. apply Z.ltb_ge in Hlen.
      rewrite Htext, Hlen. cbn [orb].
      by destruct (francAll text 3). }
    rewrite Hrun. split.
    + rewrite length_map. unfold JS.slice0. rewrite length_take. fold n.
      destruct (limit <? 0) eqn:Hneg; lia.
    + intros ->. by rewrite (slice0_nonneg _ 0).
Qed.

(** ** The code mapping of [detectLanguage] *)

Lemma own_ISO key v :
  JS.own ISO_639_3_TO_639_1 key = Some v →
  ∃ s, v = VString s ∧ truthy (VString s) = true.
Proof.
  unfold ISO_639_3_TO_639_1; cbn [JS.own].
  repeat (destruct (String.eqb _ key); [intros [= <-]; by eexists|]). done.
Qed.

Lemma own_ISO_prototype key :
  key ∈ JS.Object_prototype → JS.own ISO_639_3_TO_639_1 key = None.
Proof.
  unfold JS.Object_prototype. intros Hin.
  repeat (apply elem_of_cons in Hin as [->|Hin]; [reflexivity|]).
  by apply elem_of_nil in Hin.
Qed.

(** How the top candidate's three-letter code becomes the result's code.
    A code of the table is supported when its two-letter form is one of
    the nine, and reported under "en" otherwise.  A code the table does
    not hold is judged by its first two code units, so it is reported as
    supported whenever they happen to spell a supported code.  A code that
    names a member of [Object.prototype] is unsupported.  The raw code is
    always the classifier's. *)
Theorem detectLanguage_mapping text minLength topCode topScore rest :
  text ≠ EmptyString → minLength ≤ JS.length (JS.trim text) →
  francAll text 3 = (topCode, topScore) :: rest → topCode ≠ "und"%string →
  let r := detectLanguage text minLength in
  rawCode r = topCode
  ∧ (∀ s, JS.own ISO_639_3_TO_639_1 topCode = Some (VString s) →
       isSupported r = bool_decide (s ∈ SUPPORTED_LANGUAGES)
       ∧ code r = if bool_decide (s ∈ SUPPORTED_LANGUAGES) then s else "en"%string)
  ∧ (JS.own ISO_639_3_TO_639_1 topCode = None → topCode ∉ JS.Object_prototype →
       let prefix := JS.substring0 2 topCode in
       isSupported r = bool_decide (prefix ∈ SUPPORTED_LANGUAGES)
       ∧ code r = if bool_decide (prefix ∈ SUPPORTED_LANGUAGES) then prefix
                  else "en"%string)
  ∧ (topCode ∈ JS.Object_prototype →
       isSupported r = false ∧ code r = "en"%string).
Proof.
  intros Htext Hlen Hres Htop r. unfold r.
  rewrite (detectLanguage_top _ _ _ _ _ Htext Hlen Hres Htop).
  cbn [rawCode isSupported code]. split; [done|]. split; [|split].
  - intros s Hown. destruct (own_ISO _ _ Hown) as (s' & [= <-] & Htruthy).
    unfold get. rewrite Hown. unfold or_else. rewrite Htruthy. done.
  - intros Hown Hproto. unfold get. rewrite Hown.
    rewrite bool_decide_false by done. done.
  - intros Hproto. unfold get. rewrite (own_ISO_prototype _ Hproto).
    rewrite bool_decide_true by done. done.
Qed.

(** ** Rounding to binary64 *)

Lemma scale_nonneg q k : (0 <= Qnum q) → (0 <= Qnum (JS.scale q k)).
Proof.
  intros Hq. unfold JS.scale. destruct (k <? 0); cbn; [done|].
  apply Z.mul_nonneg_nonneg; [done|]. by apply Z.pow_nonneg.
Qed.

Lemma roundTiesToEven_nonneg q : (0 <= Qnum q) → (0 <= JS.roundTiesToEven q).
Proof.
  intros Hq. unfold JS.roundTiesToEven.
  assert (0 <= Qnum q / Z.pos (Qden q)) by (by apply Z.div_pos).
  repeat case_match; lia.
Qed.

Lemma round_nonneg q : (0 <= Qnum q) → (0 <= Qnum (JS.round q)).
Proof.
  intros Hq. unfold JS.round.
  destruct (Qnum q) as [|n|n] eqn:Hn; [done| |lia].
  unfold JS.round_positive. apply scale_nonneg. cbn.
  apply roundTiesToEven_nonneg, scale_nonneg. by rewrite Hn.
Qed.

Lemma Qc_nonneg_num (q : Qc) : (0 ≤ q)%Qc ↔ (0 <= Qnum q).
Proof.
  unfold Qcle, Qle. cbn. rewrite Z.mul_1_r. done.
Qed.

(** Rounding keeps the sign of what is not negative. *)
Lemma binary64_nonneg q : (0 ≤ q)%Qc → (0 ≤ JS.binary64 q)%Qc.
Proof.
  intros Hq%Qc_nonneg_num. apply (round_nonneg q) in Hq.
  unfold JS.binary64, Qcle. cbn [this Q2Qc].
  rewrite (Qred_correct (JS.round q)).
  unfold Qle. change (Qred 0) with 0%Q. cbn. lia.
Qed.

Lemma binary64_zero : JS.binary64 0 = 0%Qc.
Proof. by Qc_computation. Qed.

Lemma times_zero_l w : JS.times 0 w = 0%Qc.
Proof. unfold JS.times. rewrite Qcmult_0_l. apply binary64_zero. Qed.

Lemma times_nonneg a b : (0 ≤ a)%Qc → (0 ≤ b)%Qc → (0 ≤ JS.times a b)%Qc.
Proof.
  intros Ha Hb. apply binary64_nonneg. by apply Qcmult_nonneg_nonneg.
Qed.

Lemma minus_nonneg a b : (b ≤ a)%Qc → (0 ≤ JS.minus a b)%Qc.
Proof.
  intros Hle. apply binary64_nonneg. by apply Qcle_minus_iff in Hle.
Qed.

(** ** The paths of [detectEmailLanguage] *)

Lemma detectEmailLanguage_long subject body subjectWeight :
  50 ≤ JS.length (JS.trim (subject +:+ " " +:+ body)) →
  let subjectResult := detectLanguage subject 5 in
  let bodyResult := detectLanguage body 10 in
  detectEmailLanguage subject body subjectWeight =
    if decide (Q2Qc 0.7 < confidence bodyResult)%Qc then bodyResult
    else if String.eqb (code subjectResult) (code bodyResult) then
      {| code := code bodyResult;
         confidence := JS.Math_max (confidence subjectResult) (confidence bodyResult);
         isSupported := isSupported bodyResult;
         rawCode := rawCode bodyResult |}
    else if decide (JS.times (JS.binary64 (confidence subjectResult)) subjectWeight
                    ≤ JS.times (JS.binary64 (confidence bodyResult))
                        (JS.minus 1 subjectWeight))%Qc
         then bodyResult else subjectResult.
Proof.
  intros Hlen. cbn zeta. unfold detectEmailLanguage.
  apply Z.ltb_ge in Hlen. by rewrite Hlen.
Qed.

Lemma Math_max_nonneg_l c : (0 ≤ c)%Qc → JS.Math_max 0 c = c.
Proof.
  intros Hc. unfold JS.Math_max. case_decide as H; [done|].
  apply Qcle_antisym; [done|by apply Qcle_ngt].
Qed.

Lemma Math_max_nonneg_r c : (0 ≤ c)%Qc → JS.Math_max c 0 = c.
Proof.
  intros Hc. unfold JS.Math_max. case_decide as H; [|done].
  apply Qcle_antisym; [done|by apply Qclt_le_weak].
Qed.

(** The two paths that ignore the subject's verdict.  A mail whose trimmed
    "subject body" text is shorter than 50 code units is detected as one
    text with the default minimum length, whatever the weight.  A longer
    mail whose body detection has confidence above 0.7 gets the body
    result, unchanged. *)
Theorem detectEmailLanguage_direct subject body subjectWeight :
  (JS.length (JS.trim (subject +:+ " " +:+ body)) < 50 →
   detectEmailLanguage subject body subjectWeight
   = detectLanguage (JS.trim (subject +:+ " " +:+ body)) 10)
  ∧ (50 ≤ JS.length (JS.trim (subject +:+ " " +:+ body)) →
     (Q2Qc 0.7 < confidence (detectLanguage body 10))%Qc →
     detectEmailLanguage subject body subjectWeight = detectLanguage body 10).
Proof.
  split.
  - intros Hshort. unfold detectEmailLanguage.
    apply Z.ltb_lt in Hshort. by rewrite Hshort.
  - intros Hlen Hconf. rewrite detectEmailLanguage_long by done.
    by rewrite decide_True.
Qed.

(** A subject that says nothing never changes the body's verdict: in a
    long mail, when the subject is empty, shorter than 5 code units once
    trimmed, or detected with confidence 0, and the weight lies between 0
    and 1, the result is the body result. *)
Theorem detectEmailLanguage_silent_subject subject body subjectWeight :
  50 ≤ JS.length (JS.trim (subject +:+ " " +:+ body)) →
  subject = EmptyString ∨ JS.length (JS.trim subject) < 5
  ∨ confidence (detectLanguage subject 5) = 0%Qc →
  (0 ≤ subjectWeight ≤ 1)%Qc →
  detectEmailLanguage subject body subjectWeight = detectLanguage body 10.
Proof.
  intros Hlen Hsilent [_ Hweight].
  assert (Hzero : confidence (detectLanguage subject 5) = 0%Qc).
  { destruct Hsilent as [Hs | [Hs | Hs]]; [| |done];
      by rewrite detectLanguage_guard by auto. }
  rewrite detectEmailLanguage_long by done. rewrite Hzero.
  destruct (detectLanguage_unit body 10) as [Hb0 _].
  case_decide; [done|].
  destruct (String.eqb _ _).
  - rewrite Math_max_nonneg_l by done. by destruct (detectLanguage body 10).
  - rewrite decide_True; [done|]. rewrite binary64_zero, times_zero_l.
    apply times_nonneg; [by apply binary64_nonneg|]. by apply minus_nonneg.
Qed.

(** A long mail whose body says nothing (empty, or shorter than 10 code
    units once trimmed).  If the subject is detected as "en", the result
    mixes the two: the subject's confidence with the body's raw code "und"
    and support flag [true].  Otherwise the subject result is returned
    when its weighted confidence, as computed, is positive, and the
    undetermined result when it is not. *)
Theorem detectEmailLanguage_silent_body subject body subjectWeight :
  let subjectResult := detectLanguage subject 5 in
  50 ≤ JS.length (JS.trim (subject +:+ " " +:+ body)) →
  body = EmptyString ∨ JS.length (JS.trim body) < 10 →
  (code subjectResult = "en"%string →
   detectEmailLanguage subject body subjectWeight =
     {| code := "en"; confidence := confidence subjectResult;
        isSupported := true; rawCode := "und" |})
  ∧ (code subjectResult ≠ "en"%string →
     (0 < JS.times (JS.binary64 (confidence subjectResult)) subjectWeight)%Qc →
     detectEmailLanguage subject body subjectWeight = subjectResult)
  ∧ (code subjectResult ≠ "en"%string →
     (JS.times (JS.binary64 (confidence subjectResult)) subjectWeight ≤ 0)%Qc →
     detectEmailLanguage subject body subjectWeight =
       {| code := "en"; confidence := 0%Qc; isSupported := true; rawCode := "und" |}).
Proof.
  intros subjectResult Hlen Hbody.
  rewrite detectEmailLanguage_long by done. fold subjectResult.
  rewrite (detectLanguage_guard body 10 Hbody). cbn [confidence code isSupported rawCode undetermined].
  rewrite decide_False by (by apply Qcle_ngt).
  rewrite binary64_zero, times_zero_l.
  destruct (detectLanguage_unit subject 5) as [Hs0 _]. fold subjectResult in Hs0.
  split; [|split].
  - intros Hen. rewrite Hen. cbn. by rewrite Math_max_nonneg_r.
  - intros Hne Hpos. apply String.eqb_neq in Hne. rewrite Hne.
    rewrite decide_False; [done|]. by apply Qclt_nge.
  - intros Hne Hnonpos. apply String.eqb_neq in Hne. rewrite Hne.
    by rewrite decide_True.
Qed.

End Program.

(** ** Binary64 rounding against the kernel's floats *)

Module Binary64.

Import Floats.

(** On the weights and confidences of a near tie, [JS.binary64],
    [JS.minus] and [JS.times] return what the kernel's binary64 literal,
    subtraction and multiplication return: the double 0.3, [1 - 0.3], the
    products [0.875 * 0.3 = 0.2625] and
    [0.375 * (1 - 0.3) = 0.26249999999999996], and the product
    [0.4 * 0.5]; and the rounded products compare as the floats do. *)
Lemma binary64_agrees :
  let w := 0x1.3333333333333p-2%float in
  let c := 0x1.999999999999ap-2%float in
  JS.value w = Some (this (JS.binary64 (Q2Qc 0.3)))
  ∧ JS.value c = Some (this (JS.binary64 (Q2Qc 0.4)))
  ∧ JS.value (PrimFloat.sub 1 w) = Some (this (JS.minus 1 (JS.binary64 (Q2Qc 0.3))))
  ∧ JS.value (PrimFloat.mul 0.875 w)
    = Some (this (JS.times (Q2Qc 0.875) (JS.binary64 (Q2Qc 0.3))))
  ∧ JS.value (PrimFloat.mul 0.375 (PrimFloat.sub 1 w))
    = Some (this (JS.times (Q2Qc 0.375) (JS.minus 1 (JS.binary64 (Q2Qc 0.3)))))
  ∧ JS.value (PrimFloat.mul c 0.5)
    = Some (this (JS.times (JS.binary64 (Q2Qc 0.4)) (JS.binary64 (Q2Qc 0.5))))
  ∧ PrimFloat.leb (PrimFloat.mul 0.875 w) (PrimFloat.mul 0.375 (PrimFloat.sub 1 w))
    = false
  ∧ ¬ (JS.times (Q2Qc 0.875) (JS.binary64 (Q2Qc 0.3))
       ≤ JS.times (Q2Qc 0.375) (JS.minus 1 (JS.binary64 (Q2Qc 0.3))))%Qc
  ∧ (Q2Qc 0.875 * Q2Qc 0.3 = Q2Qc 0.375 * (1 - Q2Qc 0.3))%Qc.
Proof.
  cbn zeta. do 7 (split; [by vm_compute|]). split; [by_computation|].
  by Qc_computation.
Qed.

(** The same on confidences that are no doubles, the quotients 1/3 and
    1/7: [JS.binary64] of the exact quotient is the kernel's quotient, the
    products of the weighted comparison are the kernel's products, and the
    two sides, equal as exact rationals at the weight 3/10, compare as the
    floats do.  A double is its own rounding. *)
Lemma binary64_quotients :
  let w := 0x1.3333333333333p-2%float in
  let third := PrimFloat.div 1 3 in
  let seventh := PrimFloat.div 1 7 in
  JS.value third = Some (this (JS.binary64 (Q2Qc (1 # 3))))
  ∧ JS.value seventh = Some (this (JS.binary64 (Q2Qc (1 # 7))))
  ∧ JS.value (PrimFloat.mul third w)
    = Some (this (JS.times (JS.binary64 (Q2Qc (1 # 3))) (JS.binary64 (Q2Qc 0.3))))
  ∧ JS.value (PrimFloat.mul seventh (PrimFloat.sub 1 w))
    = Some (this (JS.times (JS.binary64 (Q2Qc (1 # 7)))
                    (JS.minus 1 (JS.binary64 (Q2Qc 0.3)))))
  ∧ PrimFloat.leb (PrimFloat.mul third w) (PrimFloat.mul seventh (PrimFloat.sub 1 w))
    = bool_decide
        (JS.times (JS.binary64 (Q2Qc (1 # 3))) (JS.binary64 (Q2Qc 0.3))
         ≤ JS.times (JS.binary64 (Q2Qc (1 # 7)))
             (JS.minus 1 (JS.binary64 (Q2Qc 0.3))))%Qc
  ∧ JS.binary64 (JS.binary64 (Q2Qc (1 # 3))) = JS.binary64 (Q2Qc (1 # 3))
  ∧ (Q2Qc (1 # 3) * Q2Qc 0.3 = Q2Qc (1 # 7) * (1 - Q2Qc 0.3))%Qc.
Proof.
  cbn zeta. do 5 (split; [by vm_compute|]). split; by Qc_computation.
Qed.

End Binary64.

(** ** The detectors on the sample classifier *)

(** A text the sample classifier ranks English first with the scores 6 and
    4: the confidence is 0.6. *)
Lemma detectLanguage_confidence_witness :
  let text := "Dear customer, you won"%string in
  text ≠ EmptyString
  ∧ 10 ≤ JS.length (JS.trim text)
  ∧ sampleFranc text 3 = [ ("eng", Q2Qc 6); ("sco", Q2Qc 4) ]%string
  ∧ "eng"%string ≠ "und"%string
  ∧ confidence (detectLanguage sampleFranc text 10) = Q2Qc 0.6
  ∧ (0 ≤ confidence (detectLanguage sampleFranc text 10) ≤ 1)%Qc.
Proof.
  intros text.
  assert (H1 : text ≠ EmptyString) by by_computation.
  assert (H2 : 10 ≤ JS.length (JS.trim text)) by by_computation.
  assert (H3 : sampleFranc text 3 = [ ("eng", Q2Qc 6); ("sco", Q2Qc 4) ]%string)
    by reflexivity.
  assert (H4 : "eng"%string ≠ "und"%string) by by_computation.
  destruct (detectLanguage_confidence sampleFranc text 10) as [Hformula Hbound].
  destruct (Hformula _ _ _ H1 H2 H3 H4) as [Hconf _].
  refine (conj H1 (conj H2 (conj H3 (conj H4 (conj _ Hbound))))).
  rewrite Hconf. by Qc_computation.
Defined.

(** The text "hi" with [minLength] 10, and three spaces with the same
    [minLength]. *)
Lemma detectLanguage_short_witness :
  JS.length (JS.trim "hi") < 10
  ∧ detectLanguage sampleFranc "hi" 10 =
      {| code := "en"; confidence := 0%Qc; isSupported := true; rawCode := "und" |}
  ∧ JS.allWhiteSpace "   " = true
  ∧ 0 < 10
  ∧ detectLanguage sampleFranc "   " 10 =
      {| code := "en"; confidence := 0%Qc; isSupported := true; rawCode := "und" |}.
Proof.
  assert (H1 : JS.length (JS.trim "hi") < 10) by by_computation.
  assert (H2 : JS.allWhiteSpace "   " = true) by reflexivity.
  assert (H3 : 0 < 10) by by_computation.
  refine (conj H1 (conj _ (conj H2 (conj H3 _)))).
  - apply (proj1 (detectLanguage_short sampleFranc "hi" 10)).
    right. right. exact H1.
  - apply (proj1 (detectLanguage_short sampleFranc "   " 10)).
    right. left. split; [exact H2|]. left. exact H3.
Defined.

(** A subject detected as English with confidence 0.4 and a body detected
    as English with confidence 0.6: the mail is English with confidence
    0.6. *)
Lemma detectEmailLanguage_agreement_witness :
  let subject := "Hello, a question about your invoice"%string in
  let body := "Dear customer, please find the invoice attached"%string in
  50 ≤ JS.length (JS.trim (subject +:+ " " +:+ body))
  ∧ (confidence (detectLanguage sampleFranc body 10) ≤ Q2Qc 0.7)%Qc
  ∧ code (detectLanguage sampleFranc subject 5)
    = code (detectLanguage sampleFranc body 10)
  ∧ confidence (detectLanguage sampleFranc subject 5) = Q2Qc 0.4
  ∧ confidence (detectLanguage sampleFranc body 10) = Q2Qc 0.6
  ∧ confidence (detectEmailLanguage sampleFranc subject body default_subjectWeight)
    = Q2Qc 0.6.
Proof.
  intros subject body.
  assert (H1 : 50 ≤ JS.length (JS.trim (subject +:+ " " +:+ body)))
    by by_computation.
  assert (H2 : (confidence (detectLanguage sampleFranc body 10) ≤ Q2Qc 0.7)%Qc)
    by by_computation.
  assert (H3 : code (detectLanguage sampleFranc subject 5)
               = code (detectLanguage sampleFranc body 10)) by reflexivity.
  assert (H4 : confidence (detectLanguage sampleFranc subject 5) = Q2Qc 0.4)
    by Qc_computation.
  assert (H5 : confidence (detectLanguage sampleFranc body 10) = Q2Qc 0.6)
    by Qc_computation.
  destruct (detectEmailLanguage_agreement sampleFranc subject body
              default_subjectWeight H1 H2 H3) as (Hrun & _ & _ & _ & Hexample).
  refine (conj H1 (conj H2 (conj H3 (conj H4 (conj H5 _))))).
  rewrite Hrun. exact (Hexample H4 H5).
Defined.

(** A Spanish subject and an English body, both with confidence 0.4, at
    [subjectWeight] 0.5: the weighted confidences tie and the body result
    is returned.  And a Spanish subject of confidence 0.875 against an
    English body of confidence 0.375 at the default weight: the exact
    products are equal, the rounded ones are not, and the subject result
    is returned. *)
Lemma detectEmailLanguage_weighted_witness :
  let subject := "Hola, una pregunta sobre la factura"%string in
  let body := "Hello, please find the invoice attached to this mail"%string in
  let subjectResult := detectLanguage sampleFranc subject 5 in
  let bodyResult := detectLanguage sampleFranc body 10 in
  let subject' := "Buenas tardes, una pregunta sobre la factura"%string in
  let body' := "Thanks, please find the invoice attached to this mail"%string in
  let subjectResult' := detectLanguage sampleFrancClose subject' 5 in
  let bodyResult' := detectLanguage sampleFrancClose body' 10 in
  50 ≤ JS.length (JS.trim (subject +:+ " " +:+ body))
  ∧ (confidence bodyResult ≤ Q2Qc 0.7)%Qc
  ∧ code subjectResult ≠ code bodyResult
  ∧ (JS.times (JS.binary64 (confidence subjectResult)) (JS.binary64 (Q2Qc 0.5))
     ≤ JS.times (JS.binary64 (confidence bodyResult))
         (JS.minus 1 (JS.binary64 (Q2Qc 0.5))))%Qc
  ∧ detectEmailLanguage sampleFranc subject body (JS.binary64 (Q2Qc 0.5)) = bodyResult
  ∧ 50 ≤ JS.length (JS.trim (subject' +:+ " " +:+ body'))
  ∧ (confidence bodyResult' ≤ Q2Qc 0.7)%Qc
  ∧ code subjectResult' ≠ code bodyResult'
  ∧ confidence subjectResult' = Q2Qc 0.875
  ∧ confidence bodyResult' = Q2Qc 0.375
  ∧ (JS.times (JS.binary64 (confidence bodyResult')) (JS.minus 1 default_subjectWeight)
     < JS.times (JS.binary64 (confidence subjectResult')) default_subjectWeight)%Qc
  ∧ detectEmailLanguage sampleFrancClose subject' body' default_subjectWeight
    = subjectResult'.
Proof.
  intros subject body subjectResult bodyResult
    subject' body' subjectResult' bodyResult'.
  assert (H1 : 50 ≤ JS.length (JS.trim (subject +:+ " " +:+ body)))
    by by_computation.
  assert (H2 : (confidence bodyResult ≤ Q2Qc 0.7)%Qc) by by_computation.
  assert (H3 : code subjectResult ≠ code bodyResult) by by_computation.
  assert (H4 : (JS.times (JS.binary64 (confidence subjectResult))
                  (JS.binary64 (Q2Qc 0.5))
                ≤ JS.times (JS.binary64 (confidence bodyResult))
                    (JS.minus 1 (JS.binary64 (Q2Qc 0.5))))%Qc) by by_computation.
  assert (H5 : 50 ≤ JS.length (JS.trim (subject' +:+ " " +:+ body')))
    by by_computation.
  assert (H6 : (confidence bodyResult' ≤ Q2Qc 0.7)%Qc) by by_computation.
  assert (H7 : code subjectResult' ≠ code bodyResult') by by_computation.
  assert (H8 : confidence subjectResult' = Q2Qc 0.875) by Qc_computation.
  assert (H9 : confidence bodyResult' = Q2Qc 0.375) by Qc_computation.
  assert (H10 : (JS.times (JS.binary64 (confidence bodyResult'))
                   (JS.minus 1 default_subjectWeight)
                 < JS.times (JS.binary64 (confidence subjectResult'))
                     default_subjectWeight)%Qc)
    by by_computation.
  refine (conj H1 (conj H2 (conj H3 (conj H4 (conj _ (conj H5 (conj H6 (conj H7
            (conj H8 (conj H9 (conj H10 _))))))))))).
  - exact (proj2 (detectEmailLanguage_weighted sampleFranc subject body
                    (JS.binary64 (Q2Qc 0.5)) H1 H2 H3) H4).
  - exact (proj1 (detectEmailLanguage_weighted sampleFrancClose subject' body'
                    default_subjectWeight H5 H6 H7) H10).
Defined.

(** A text the sample classifier scores 9, 3 and 3, with limit 3. *)
Lemma detectLanguages_window_witness :
  let text := "Bonjour tout le monde"%string in
  text ≠ EmptyString
  ∧ 10 ≤ JS.length (JS.trim text)
  ∧ sampleFranc text 3 ≠ []
  ∧ 0 ≤ 3
  ∧ map rawCode (detectLanguages sampleFranc text 3) = [ "fra"; "spa"; "ita" ]%string
  ∧ map confidence (detectLanguages sampleFranc text 3)
    = [ Q2Qc 0.6; Q2Qc 0.2; Q2Qc 0.2 ].
Proof.
  intros text.
  assert (H1 : text ≠ EmptyString) by by_computation.
  assert (H2 : 10 ≤ JS.length (JS.trim text)) by by_computation.
  assert (H3 : sampleFranc text 3 ≠ []) by discriminate.
  assert (H4 : 0 ≤ 3) by by_computation.
  destruct (detectLanguages_window sampleFranc text 3 H1 H2 H3 H4)
    as (_ & Horder & _ & _ & Hexample).
  refine (conj H1 (conj H2 (conj H3 (conj H4 (conj Horder _))))).
  exact (proj1 (Hexample "fra"%string "spa"%string "ita"%string eq_refl eq_refl)).
Defined.

(** A text the sample classifier cannot determine: [detectLanguages]
    reports "und" with confidence 1 and unsupported, [detectLanguage] the
    undetermined default. *)
Lemma detectLanguages_undetermined_witness :
  let text := "12345 67890 12345"%string in
  text ≠ EmptyString
  ∧ 10 ≤ JS.length (JS.trim text)
  ∧ sampleFranc text 3 = [ ("und"%string, Q2Qc 1) ]
  ∧ 1 ≤ default_limit
  ∧ detectLanguages sampleFranc text default_limit =
      [ {| code := "en"; confidence := 1%Qc; isSupported := false; rawCode := "und" |} ]
  ∧ detectLanguage sampleFranc text default_minLength =
      {| code := "en"; confidence := 0%Qc; isSupported := true; rawCode := "und" |}.
Proof.
  intros text.
  assert (H1 : text ≠ EmptyString) by by_computation.
  assert (H2 : 10 ≤ JS.length (JS.trim text)) by by_computation.
  assert (H3 : sampleFranc text 3 = [ ("und"%string, Q2Qc 1) ]) by reflexivity.
  assert (H4 : 1 ≤ default_limit) by by_computation.
  destruct (detectLanguages_undetermined sampleFranc text default_limit
              default_minLength (Q2Qc 1) [] H1 H2 H3 H4)
    as ([others Hall] & _ & Hone & Hsingle).
  refine (conj H1 (conj H2 (conj H3 (conj H4 (conj _ Hsingle))))).
  rewrite Hall. rewrite (Hone eq_refl) by by_computation.
  f_equal.
  assert (Hlen : List.length (detectLanguages sampleFranc text default_limit) = 1%nat)
    by reflexivity.
  rewrite Hall in Hlen. by destruct others.
Defined.

(** ** The resolver on the sample datasets *)

Lemma normalize_EN_not_inherited : ¬ inherited (normalize " EN ").
Proof. intros [H | H]; vm_compute in H; discriminate H. Qed.

Lemma normalize_zz_not_inherited : ¬ inherited (normalize "zz-unknown").
Proof. intros [H | H]; vm_compute in H; discriminate H. Qed.

(** " EN " from the initial state. *)
Lemma resolver_returns_witness :
  ∃ obj st',
    getLanguageData sampleJson " EN " initial = Returns (Some obj) st'
    ∧ cache_ok sampleJson st'
    ∧ getSpamWords sampleJson " EN " initial = Returns (spamWords (dataset obj)) st'
    ∧ getHamWords sampleJson " EN " initial = Returns (hamWords (dataset obj)) st'
    ∧ getBayesianTokens sampleJson " EN " initial
      = Returns (bayesianTokens (dataset obj)) st'
    ∧ getUrgencyWords sampleJson " EN " initial
      = Returns (urgencyWords (dataset obj)) st'.
Proof.
  exact (resolver_returns sampleJson " EN " initial
           (cache_ok_initial sampleJson) normalize_EN_not_inherited).
Defined.

(** The initial state. *)
Lemma resolver_preload_clear_witness :
  (∃ st', preloadAllLanguages sampleJson initial = Returns tt st'
          ∧ cache_ok sampleJson st'
          ∧ ∀ key, key ∈ SUPPORTED_LANGUAGES → is_Some (datasetCache st' !! key))
  ∧ (∃ st', clearCache initial = Returns tt st'
            ∧ cache_ok sampleJson st' ∧ datasetCache st' = ∅).
Proof.
  exact (resolver_preload_clear sampleJson initial (cache_ok_initial sampleJson)).
Defined.

(** " EN " and "En" from the initial state. *)
Lemma resolver_identical_witness :
  normalize " EN " = normalize "En"
  ∧ (∃ obj st1 st2,
       getLanguageData sampleJson " EN " initial = Returns (Some obj) st1
       ∧ getLanguageData sampleJson "En" st1 = Returns (Some obj) st2).
Proof.
  assert (H : normalize " EN " = normalize "En") by reflexivity.
  split; [exact H|].
  exact (resolver_identical sampleJson " EN " "En" initial
           (cache_ok_initial sampleJson) H normalize_EN_not_inherited).
Defined.

(** "zz-unknown" from the initial state. *)
Lemma resolver_fallback_witness :
  (normalize "zz-unknown" ∉ SUPPORTED_LANGUAGES)
  ∧ (∃ obj st',
       getLanguageData sampleJson "zz-unknown" initial = Returns (Some obj) st'
       ∧ dataset obj = processed (enData sampleJson)
       ∧ normalize "zz-unknown" ≠ "en"%string
       ∧ console st' =
           ("Language " +:+ quote +:+ normalize "zz-unknown" +:+ quote
            +:+ " not available, falling back to English") :: console initial).
Proof.
  assert (H : normalize "zz-unknown" ∉ SUPPORTED_LANGUAGES) by by_computation.
  split; [exact H|].
  exact (resolver_fallback sampleJson "zz-unknown" initial
           (cache_ok_initial sampleJson) H normalize_zz_not_inherited).
Defined.

(** " EN " is available. *)
Lemma resolver_available_witness :
  hasLanguageData sampleJson " EN " = true
  ∧ getAvailableLanguages sampleJson = SUPPORTED_LANGUAGES.
Proof.
  destruct (resolver_available sampleJson " EN " normalize_EN_not_inherited)
    as [Hiff Hlist].
  split; [|exact Hlist]. apply Hiff. by_computation.
Defined.

(** ** The resolver's guarantees on the sample datasets *)

(** "Constructor" throws from the initial state and leaves it as it was. *)
Lemma resolver_throws_exactly_witness :
  (∃ e st', getLanguageData sampleJson "Constructor" initial = Throws e st')
  ∧ (∀ e st', getLanguageData sampleJson "Constructor" initial = Throws e st' →
       st' = initial
       ∧ e = TypeError "Cannot read properties of undefined (reading 'map')").
Proof.
  destruct (resolver_throws_exactly sampleJson "Constructor" initial
              (reachable_initial sampleJson)) as [Hiff Hstate].
  split; [|exact Hstate]. apply Hiff. left. reflexivity.
Defined.

(** "xx" is not available and falls back. *)
Lemma resolver_guarded_witness :
  hasLanguageData sampleJson "xx" = false
  ∧ (∃ obj st',
       getLanguageData sampleJson "xx" initial = Returns (Some obj) st'
       ∧ dataset obj = processed (enData sampleJson)
       ∧ console st' =
           ("Language " +:+ quote +:+ normalize "xx" +:+ quote
            +:+ " not available, falling back to English") :: console initial).
Proof.
  assert (H : hasLanguageData sampleJson "xx" = false) by reflexivity.
  split; [exact H|].
  exact (resolver_guarded sampleJson "xx" initial (reachable_initial sampleJson) H).
Defined.

(** "fr" is available. *)
Lemma resolver_available_served_witness :
  "fr"%string ∈ getAvailableLanguages sampleJson
  ∧ hasLanguageData sampleJson "fr" = true
  ∧ (∃ raw obj st',
       JS.own (languageDataMap sampleJson) "fr" = Some (VRaw raw)
       ∧ getLanguageData sampleJson "fr" initial = Returns (Some obj) st'
       ∧ dataset obj = processed raw
       ∧ console st' = console initial
       ∧ getLanguageData sampleJson "fr" st' = Returns (Some obj) st').
Proof.
  assert (H : "fr"%string ∈ getAvailableLanguages sampleJson) by by_computation.
  split; [exact H|].
  exact (resolver_available_served sampleJson "fr" initial
           (reachable_initial sampleJson) H).
Defined.

(** "fr", the cache cleared, "fr" again. *)
Lemma resolver_clear_rematerializes_witness :
  ∃ obj st1 obj' st3,
    getLanguageData sampleJson "fr" initial = Returns (Some obj) st1
    ∧ getLanguageData sampleJson "fr" (after (clearCache st1)) = Returns (Some obj') st3
    ∧ dataset obj' = dataset obj
    ∧ (ref obj < ref obj')%nat.
Proof.
  destruct (resolver_available_served sampleJson "fr" initial
              (reachable_initial sampleJson))
    as (_ & _ & obj & st1 & _ & Hget & _); [by_computation|].
  destruct (resolver_clear_rematerializes sampleJson "fr" initial obj st1
              (reachable_initial sampleJson) Hget) as (obj' & st3 & Hagain).
  exists obj, st1, obj', st3. exact (conj Hget Hagain).
Defined.

(** The preload from the initial state. *)
Lemma resolver_preload_warm_witness :
  ∃ st',
    preloadAllLanguages sampleJson initial = Returns tt st'
    ∧ preloadAllLanguages sampleJson st' = Returns tt st'
    ∧ ∀ langCode obj st'',
        getLanguageData sampleJson langCode st' = Returns (Some obj) st'' →
        datasetCache st'' = datasetCache st' ∧ nextRef st'' = nextRef st'
        ∧ datasetCache st' !! servedFrom (normalize langCode) = Some obj.
Proof.
  destruct (resolver_preload_clear sampleJson initial (cache_ok_initial sampleJson))
    as [(st' & Hrun & _) _].
  exists st'. split; [exact Hrun|].
  exact (resolver_preload_warm sampleJson initial st'
           (reachable_initial sampleJson) Hrun).
Defined.

(** The state after "xx", "de" and a preload. *)
Lemma reachable_cache_bounded_witness :
  let st :=
    after (preloadAllLanguages sampleJson
             (after (getLanguageData sampleJson "de"
                       (after (getLanguageData sampleJson "xx" initial))))) in
  reachable sampleJson st
  ∧ (size (datasetCache st) ≤ 9)%nat
  ∧ (∀ key obj, datasetCache st !! key = Some obj →
       key ∈ SUPPORTED_LANGUAGES
       ∧ ∃ raw, JS.own (languageDataMap sampleJson) key = Some (VRaw raw)
                ∧ dataset obj = processed raw)
  ∧ (∀ key1 key2 obj, datasetCache st !! key1 = Some obj →
       datasetCache st !! key2 = Some obj → key1 = key2).
Proof.
  intros st.
  assert (H : reachable sampleJson st).
  { apply reachable_preloadAllLanguages, reachable_getLanguageData,
      reachable_getLanguageData, reachable_initial. }
  split; [exact H|]. exact (reachable_cache_bounded sampleJson st H).
Defined.

(** "xx" then "en" share the English object; "fr" then "en" do not. *)
Lemma resolver_object_identity_witness :
  ∃ obj1 st1 obj2 st2,
    getLanguageData sampleJson "xx" initial = Returns (Some obj1) st1
    ∧ getLanguageData sampleJson "en" st1 = Returns (Some obj2) st2
    ∧ obj1 = obj2.
Proof.
  destruct (resolver_guarded sampleJson "xx" initial (reachable_initial sampleJson))
    as (obj1 & st1 & Hget1 & _); [reflexivity|].
  assert (Hreach : reachable sampleJson st1).
  { replace st1 with (after (getLanguageData sampleJson "xx" initial))
      by (by rewrite Hget1).
    apply reachable_getLanguageData, reachable_initial. }
  destruct (resolver_available_served sampleJson "en" st1 Hreach)
    as (_ & _ & obj2 & st2 & _ & Hget2 & _); [by_computation|].
  destruct (resolver_object_identity sampleJson "xx" "en" initial obj1 st1 obj2 st2
              (reachable_initial sampleJson) Hget1 Hget2) as [Hiff Hsame].
  exists obj1, st1, obj2, st2.
  refine (conj Hget1 (conj Hget2 (Hsame _))). apply Hiff. reflexivity.
Defined.

(** The projections on "fr". *)
Lemma resolver_projections_witness :
  JS.own (languageDataMap sampleJson) "fr" = Some (VRaw (frData sampleJson))
  ∧ (∃ st',
       getSpamWords sampleJson "fr" initial
       = Returns (raw_spamWords (frData sampleJson)) st'
       ∧ getHamWords sampleJson "fr" initial
         = Returns (raw_hamWords (frData sampleJson)) st'
       ∧ getBayesianTokens sampleJson "fr" initial
         = Returns (raw_bayesianTokens (frData sampleJson)) st'
       ∧ getUrgencyWords sampleJson "fr" initial
         = Returns (raw_urgencyWords (frData sampleJson)) st'
       ∧ (∃ obj, getLanguageData sampleJson "fr" initial = Returns (Some obj) st'
                 ∧ spamSubjectPatterns (dataset obj)
                   = raw_spamSubjectPatterns (frData sampleJson)
                 ∧ language (dataset obj) = raw_language (frData sampleJson))).
Proof.
  assert (H : JS.own (languageDataMap sampleJson) "fr"
              = Some (VRaw (frData sampleJson))) by reflexivity.
  split; [exact H|].
  exact (resolver_projections sampleJson "fr" initial (frData sampleJson)
           (reachable_initial sampleJson) H).
Defined.

(** The result of detecting a French text is resolved to the French
    dataset. *)
Lemma detect_then_resolve_witness :
  let r := detectLanguage sampleFranc "Bonjour tout le monde" 10 in
  code r = "fr"%string
  ∧ (∃ raw obj st',
       JS.own (languageDataMap sampleJson) (code r) = Some (VRaw raw)
       ∧ getLanguageData sampleJson (code r) initial = Returns (Some obj) st'
       ∧ dataset obj = processed raw
       ∧ console st' = console initial).
Proof.
  intros r. split; [reflexivity|].
  apply (detect_then_resolve sampleJson sampleFranc initial
           (reachable_initial sampleJson) r).
  left. exists "Bonjour tout le monde"%string, 10. reflexivity.
Defined.

(** ** The detectors' guarantees on the sample classifiers *)

Lemma sampleFranc_nonnegative text : nonnegative (sampleFranc text 3).
Proof.
  unfold sampleFranc, nonnegative.
  repeat case_match; repeat constructor; by_computation.
Qed.

(** Scores 6 and 4: the confidence is 6/10 without any clamping. *)
Lemma detectLanguage_ratio_witness :
  let text := "Dear customer, you won"%string in
  text ≠ EmptyString
  ∧ 10 ≤ JS.length (JS.trim text)
  ∧ sampleFranc text 3 = [ ("eng", Q2Qc 6); ("sco", Q2Qc 4) ]%string
  ∧ confidence (detectLanguage sampleFranc text 10)
    = (Q2Qc 6 / sumScores (firstn 5 (sampleFranc text 3)))%Qc.
Proof.
  intros text.
  assert (H1 : text ≠ EmptyString) by by_computation.
  assert (H2 : 10 ≤ JS.length (JS.trim text)) by by_computation.
  assert (H3 : sampleFranc text 3 = [ ("eng", Q2Qc 6); ("sco", Q2Qc 4) ]%string)
    by reflexivity.
  assert (H4 : "eng"%string ≠ "und"%string) by by_computation.
  pose proof (detectLanguage_ratio sampleFranc text 10 _ _ _ H1 H2 H3 H4
                (sampleFranc_nonnegative text)) as Hconf.
  refine (conj H1 (conj H2 (conj H3 _))).
  rewrite Hconf. rewrite decide_True by by_computation. reflexivity.
Defined.

(** The first of the ranked results is the single result. *)
Lemma detectLanguages_head_agrees_witness :
  let text := "Bonjour tout le monde"%string in
  text ≠ EmptyString
  ∧ 10 ≤ JS.length (JS.trim text)
  ∧ sampleFranc text 3 = [ ("fra", Q2Qc 9); ("spa", Q2Qc 3); ("ita", Q2Qc 3) ]%string
  ∧ head (detectLanguages sampleFranc text default_limit)
    = Some (detectLanguage sampleFranc text default_minLength).
Proof.
  intros text.
  assert (H1 : text ≠ EmptyString) by by_computation.
  assert (H2 : 10 ≤ JS.length (JS.trim text)) by by_computation.
  assert (H3 : sampleFranc text 3
               = [ ("fra", Q2Qc 9); ("spa", Q2Qc 3); ("ita", Q2Qc 3) ]%string)
    by reflexivity.
  assert (H4 : "fra"%string ≠ "und"%string) by by_computation.
  exact (conj H1 (conj H2 (conj H3
    (detectLanguages_head_agrees sampleFranc text _ _ _ H1 H2 H3 H4
       (sampleFranc_nonnegative text))))).
Defined.

(** Three candidates, limit 2. *)
Lemma detectLanguages_bounds_witness :
  let text := "Bonjour tout le monde"%string in
  text ≠ EmptyString
  ∧ 10 ≤ JS.length (JS.trim text)
  ∧ sampleFranc text 3 ≠ []
  ∧ 0 ≤ 2
  ∧ Forall (λ r, (0 ≤ confidence r ≤ 1)%Qc ∧ code r ∈ SUPPORTED_LANGUAGES)
           (detectLanguages sampleFranc text 2).
Proof.
  intros text.
  assert (H1 : text ≠ EmptyString) by by_computation.
  assert (H2 : 10 ≤ JS.length (JS.trim text)) by by_computation.
  assert (H3 : sampleFranc text 3 ≠ []) by discriminate.
  assert (H4 : 0 ≤ 2) by by_computation.
  destruct (detectLanguages_bounds sampleFranc text 2 H1 H2 H3 H4
              (sampleFranc_nonnegative text)) as (Hunit & _).
  exact (conj H1 (conj H2 (conj H3 (conj H4 Hunit)))).
Defined.

(** Limit 0 on a text with three candidates, and on a short text. *)
Lemma detectLanguages_length_witness :
  let text := "Bonjour tout le monde"%string in
  text ≠ EmptyString
  ∧ 10 ≤ JS.length (JS.trim text)
  ∧ sampleFranc text 3 ≠ []
  ∧ detectLanguages sampleFranc text 0 = []
  ∧ Z.of_nat (List.length (detectLanguages sampleFranc text (-1))) = 2
  ∧ JS.length (JS.trim "hi") < 10
  ∧ detectLanguages sampleFranc "hi" 0 =
      [ {| code := "en"; confidence := 0%Qc; isSupported := true; rawCode := "und" |} ].
Proof.
  intros text.
  assert (H1 : text ≠ EmptyString) by by_computation.
  assert (H2 : 10 ≤ JS.length (JS.trim text)) by by_computation.
  assert (H3 : sampleFranc text 3 ≠ []) by discriminate.
  assert (H4 : JS.length (JS.trim "hi") < 10) by by_computation.
  destruct (detectLanguages_length sampleFranc text 0) as [_ Hzero].
  destruct (detectLanguages_length sampleFranc text (-1)) as [_ Hneg].
  destruct (detectLanguages_length sampleFranc "hi" 0) as [Hshort _].
  refine (conj H1 (conj H2 (conj H3 (conj _ (conj _ (conj H4 _)))))).
  - exact (proj2 (Hzero H1 H2 H3) eq_refl).
  - exact (proj1 (Hneg H1 H2 H3)).
  - apply Hshort. right. left. exact H4.
Defined.

(** "est" is not in the table and starts like Spanish; "jpn" is in the
    table and unsupported. *)
Lemma detectLanguage_mapping_witness :
  let estonian := "Tere tulemast koju"%string in
  let japanese := "Konnichiwa sekai desu"%string in
  sampleFrancOther estonian 3 = [ ("est", Q2Qc 5); ("fin", Q2Qc 5) ]%string
  ∧ JS.own ISO_639_3_TO_639_1 "est" = None
  ∧ code (detectLanguage sampleFrancOther estonian 10) = "es"%string
  ∧ isSupported (detectLanguage sampleFrancOther estonian 10) = true
  ∧ rawCode (detectLanguage sampleFrancOther estonian 10) = "est"%string
  ∧ sampleFrancOther japanese 3 = [ ("jpn", Q2Qc 8); ("cmn", Q2Qc 2) ]%string
  ∧ JS.own ISO_639_3_TO_639_1 "jpn" = Some (VString "ja")
  ∧ code (detectLanguage sampleFrancOther japanese 10) = "en"%string
  ∧ isSupported (detectLanguage sampleFrancOther japanese 10) = false
  ∧ rawCode (detectLanguage sampleFrancOther japanese 10) = "jpn"%string.
Proof.
  intros estonian japanese.
  assert (E1 : estonian ≠ EmptyString) by by_computation.
  assert (E2 : 10 ≤ JS.length (JS.trim estonian)) by by_computation.
  assert (E3 : sampleFrancOther estonian 3
               = [ ("est", Q2Qc 5); ("fin", Q2Qc 5) ]%string) by reflexivity.
  assert (E4 : "est"%string ≠ "und"%string) by by_computation.
  assert (E5 : JS.own ISO_639_3_TO_639_1 "est" = None) by reflexivity.
  assert (E6 : "est"%string ∉ JS.Object_prototype) by by_computation.
  assert (J1 : japanese ≠ EmptyString) by by_computation.
  assert (J2 : 10 ≤ JS.length (JS.trim japanese)) by by_computation.
  assert (J3 : sampleFrancOther japanese 3
               = [ ("jpn", Q2Qc 8); ("cmn", Q2Qc 2) ]%string) by reflexivity.
  assert (J4 : "jpn"%string ≠ "und"%string) by by_computation.
  assert (J5 : JS.own ISO_639_3_TO_639_1 "jpn" = Some (VString "ja")) by reflexivity.
  destruct (detectLanguage_mapping sampleFrancOther estonian 10 _ _ _ E1 E2 E3 E4)
    as (Eraw & _ & Eprefix & _).
  destruct (Eprefix E5 E6) as [Esup Ecode].
  destruct (detectLanguage_mapping sampleFrancOther japanese 10 _ _ _ J1 J2 J3 J4)
    as (Jraw & Jtable & _).
  destruct (Jtable _ J5) as [Jsup Jcode].
  exact (conj E3 (conj E5 (conj Ecode (conj Esup (conj Eraw
          (conj J3 (conj J5 (conj Jcode (conj Jsup Jraw))))))))).
Defined.

(** A short mail, and a long mail whose body is detected with confidence
    0.8. *)
Lemma detectEmailLanguage_direct_witness :
  let subject := "Tere tulemast koju"%string in
  let body := "Konnichiwa sekai desu, ogenki desu ka minasan"%string in
  JS.length (JS.trim ("Tere" +:+ " " +:+ "Konnichiwa")) < 50
  ∧ detectEmailLanguage sampleFrancOther "Tere" "Konnichiwa" default_subjectWeight
    = detectLanguage sampleFrancOther (JS.trim ("Tere" +:+ " " +:+ "Konnichiwa")) 10
  ∧ 50 ≤ JS.length (JS.trim (subject +:+ " " +:+ body))
  ∧ (Q2Qc 0.7 < confidence (detectLanguage sampleFrancOther body 10))%Qc
  ∧ detectEmailLanguage sampleFrancOther subject body default_subjectWeight
    = detectLanguage sampleFrancOther body 10.
Proof.
  intros subject body.
  assert (H1 : JS.length (JS.trim ("Tere" +:+ " " +:+ "Konnichiwa")) < 50)
    by by_computation.
  assert (H2 : 50 ≤ JS.length (JS.trim (subject +:+ " " +:+ body)))
    by by_computation.
  assert (H3 : (Q2Qc 0.7 < confidence (detectLanguage sampleFrancOther body 10))%Qc)
    by by_computation.
  destruct (detectEmailLanguage_direct sampleFrancOther "Tere" "Konnichiwa"
              default_subjectWeight) as [Hshort _].
  destruct (detectEmailLanguage_direct sampleFrancOther subject body
              default_subjectWeight) as [_ Hlong].
  exact (conj H1 (conj (Hshort H1) (conj H2 (conj H3 (Hlong H2 H3))))).
Defined.

(** A mail with an empty subject. *)
Lemma detectEmailLanguage_silent_subject_witness :
  let body := "Dear customer, please find the invoice attached to this mail"%string in
  50 ≤ JS.length (JS.trim (EmptyString +:+ " " +:+ body))
  ∧ (0 ≤ default_subjectWeight ≤ 1)%Qc
  ∧ detectEmailLanguage sampleFranc EmptyString body default_subjectWeight
    = detectLanguage sampleFranc body 10.
Proof.
  intros body.
  assert (H1 : 50 ≤ JS.length (JS.trim (EmptyString +:+ " " +:+ body)))
    by by_computation.
  assert (H2 : (0 ≤ default_subjectWeight ≤ 1)%Qc) by (split; by_computation).
  exact (conj H1 (conj H2
    (detectEmailLanguage_silent_subject sampleFranc EmptyString body
       default_subjectWeight H1 (or_introl eq_refl) H2))).
Defined.

(** Long subjects with an empty body: an English one and a Spanish one. *)
Lemma detectEmailLanguage_silent_body_witness :
  let english := "Hello, a question about your invoice for this month, thanks"%string in
  let spanish := "Hola, una pregunta sobre la factura de este mes, gracias"%string in
  50 ≤ JS.length (JS.trim (english +:+ " " +:+ EmptyString))
  ∧ code (detectLanguage sampleFranc english 5) = "en"%string
  ∧ detectEmailLanguage sampleFranc english EmptyString default_subjectWeight =
      {| code := "en";
         confidence := confidence (detectLanguage sampleFranc english 5);
         isSupported := true; rawCode := "und" |}
  ∧ 50 ≤ JS.length (JS.trim (spanish +:+ " " +:+ EmptyString))
  ∧ code (detectLanguage sampleFranc spanish 5) ≠ "en"%string
  ∧ (0 < JS.times (JS.binary64 (confidence (detectLanguage sampleFranc spanish 5)))
           default_subjectWeight)%Qc
  ∧ detectEmailLanguage sampleFranc spanish EmptyString default_subjectWeight
    = detectLanguage sampleFranc spanish 5.
Proof.
  intros english spanish.
  assert (E1 : 50 ≤ JS.length (JS.trim (english +:+ " " +:+ EmptyString)))
    by by_computation.
  assert (E2 : code (detectLanguage sampleFranc english 5) = "en"%string)
    by reflexivity.
  assert (S1 : 50 ≤ JS.length (JS.trim (spanish +:+ " " +:+ EmptyString)))
    by by_computation.
  assert (S2 : code (detectLanguage sampleFranc spanish 5) ≠ "en"%string)
    by by_computation.
  assert (S3 : (0 < JS.times
                      (JS.binary64 (confidence (detectLanguage sampleFranc spanish 5)))
                      default_subjectWeight)%Qc) by by_computation.
  destruct (detectEmailLanguage_silent_body sampleFranc english EmptyString
              default_subjectWeight E1 (or_introl eq_refl)) as (Hen & _).
  destruct (detectEmailLanguage_silent_body sampleFranc spanish EmptyString
              default_subjectWeight S1 (or_introl eq_refl)) as (_ & Hsubject & _).
  exact (conj E1 (conj E2 (conj (Hen E2) (conj S1 (conj S2 (conj S3
          (Hsubject S2 S3))))))).
Defined.
